(** * travel_explore.py: fetch, rank and present travel destinations

    A shallow embedding of [src/travel_explore.py] and the properties of
    its three stages (Fetcher, Ranker, Presenter) and of the command-line
    orchestrator.

    Conventions of the embedding.
    - A Python [str] is a Rocq [string]: the bytes of its UTF-8 encoding
      (a str with a lone surrogate has none and is not represented).
    - A Python [int] is a [Z].
    - A decoded JSON document is a [value]; JSON numbers are integers
      here.  The only float is [float("inf")], which the program creates
      itself: [VInf].
    - A Python [dict] with [str] keys is a [gmap string value]; [d.get(k)]
      is the lookup [d !! k].
    - A call that can raise returns a [result]; the orchestrator, which
      prints and talks to the network, runs in the [io] monad over an
      explicit [world]. *)

From stdpp Require Import gmap strings list fin_maps pretty sorting.
From Stdlib Require Import ZArith Lia Ascii.

Set Warnings "-register-all".
Open Scope Z_scope.

(** ** Python values *)

Inductive value :=
  | VNone
  | VBool (b : bool)
  | VInt (n : Z)
  | VInf
  | VStr (s : string)
  | VList (l : list value)
  | VDict (d : gmap string value).

(** The exceptions the program raises, catches or lets escape. *)
Inductive exn :=
  | AttributeError
  | TypeError
  | ValueError (msg : string)
  | HTTPError (status : Z) (msg : string)
  | RequestException (msg : string)
  | SystemExit (code : Z).

Inductive result (A : Type) :=
  | Ok (a : A)
  | Raise (e : exn).
Arguments Ok {A} a.
Arguments Raise {A} e.

#[global] Instance result_ret : MRet result := fun _ a => Ok a.
#[global] Instance result_bind : MBind result := fun _ _ f m =>
  match m with Ok a => f a | Raise e => Raise e end.
#[global] Instance result_fmap : FMap result := fun _ _ f m =>
  match m with Ok a => Ok (f a) | Raise e => Raise e end.

(** Builtins of the Python runtime whose algorithms are not part of the
    repository: the text of a list or of a dict ([repr]), and the ordering
    of two lists ([<], which may raise). *)
Class Builtins := {
  container_repr : value -> string;
  list_lt : list value -> list value -> result bool
}.

(** [bool(v)]: the truth value Python's [if v] tests. *)
Definition truthy (v : value) : bool :=
  match v with
  | VNone => false
  | VBool b => b
  | VInt n => negb (n =? 0)
  | VInf => true
  | VStr s => negb (String.eqb s "")
  | VList l => match l with [] => false | _ => true end
  | VDict d => negb (bool_decide (d = ∅))
  end.

(** [int] and [bool] (a subclass of [int]) as numbers. *)
Definition as_int (v : value) : option Z :=
  match v with
  | VInt n => Some n
  | VBool b => Some (Z.b2z b)
  | _ => None
  end.

(** [v == n] for an [int] literal [n]. *)
Definition eq_int (v : value) (n : Z) : bool :=
  match as_int v with Some m => m =? n | None => false end.

(** [v == s] for a [str] literal [s]. *)
Definition eq_str (v : value) (s : string) : bool :=
  match v with VStr t => String.eqb t s | _ => false end.

(** [o.get(k, default)]: only a dict has the method. *)
Definition py_get (o : value) (k : string) (dflt : value) : result value :=
  match o with
  | VDict d => Ok (default dflt (d !! k))
  | _ => Raise AttributeError
  end.

(** The code points of a [str]: in UTF-8 a code point is a byte that is
    not a continuation byte ([10xxxxxx]) and the continuation bytes after
    it. *)
Definition is_continuation (c : ascii) : bool :=
  let n := N_of_ascii c in ((128 <=? n) && (n <? 192))%N.

Fixpoint code_points (s : string) : list string :=
  match s with
  | EmptyString => []
  | String c s' =>
      let rest := code_points s' in
      match s', rest with
      | String c' _, p :: ps =>
          if is_continuation c' then String c p :: ps
          else String c "" :: rest
      | _, _ => String c "" :: rest
      end
  end.

(** What a [for] loop or [sorted] draws from [v]: the items of a list,
    the keys of a dict, the characters of a str; other values are not
    iterable.  (A dict yields its keys in insertion order, which a [gmap]
    does not record; nothing below depends on that order.) *)
Definition py_iter (v : value) : result (list value) :=
  match v with
  | VList l => Ok l
  | VDict d => Ok (VStr <$> (map_to_list d).*1)
  | VStr s => Ok (VStr <$> code_points s)
  | _ => Raise TypeError
  end.

(** [len(v)]. *)
Definition py_len (v : value) : result Z :=
  match v with
  | VList l => Ok (Z.of_nat (length l))
  | VDict d => Ok (Z.of_nat (size d))
  | VStr s => Ok (Z.of_nat (length (code_points s)))
  | _ => Raise TypeError
  end.

(** [l[:stop]] on a list: a negative [stop] counts from the end. *)
Definition slice_to {A} (l : list A) (stop : Z) : list A :=
  if stop <? 0 then take (Z.to_nat (Z.max 0 (Z.of_nat (length l) + stop))) l
  else take (Z.to_nat stop) l.

(** [s * n] on a str. *)
Definition str_mul (s : string) (n : Z) : string :=
  String.concat "" (replicate (Z.to_nat n) s).

(** ** The process and its surroundings *)

Record request := {
  url : string;
  params : gmap string value;
  headers : gmap string string
}.

(** A [requests.Response]: the status code, the text of the [HTTPError]
    that [raise_for_status] builds for an error status, and what [json()]
    returns or raises (a body that is not JSON raises a [ValueError]). *)
Record response := {
  status_code : Z;
  error_text : string;
  json : result value
}.

(** The network's answer to a request: a transport failure, for which
    [requests.get] raises a [RequestException], or a response. *)
Inductive reply :=
  | Unreachable (msg : string)
  | Answer (r : response).

(** What the process finds: its environment variables and the network. *)
Record host := {
  environ : gmap string string;
  network : request -> reply
}.

(** What the process does: the lines printed to stdout and to stderr (one
    entry per [print] call, without the final newline) and the requests
    sent, all in order. *)
Record world := {
  stdout : list string;
  stderr : list string;
  sent : list request
}.

Definition start : world := {| stdout := []; stderr := []; sent := [] |}.

Definition io (A : Type) : Type := world -> result A * world.

#[global] Instance io_ret : MRet io := fun _ a w => (Ok a, w).
#[global] Instance io_bind : MBind io := fun _ _ f m w =>
  match m w with
  | (Ok a, w') => f a w'
  | (Raise e, w') => (Raise e, w')
  end.

Definition raise {A} (e : exn) : io A := fun w => (Raise e, w).

Definition lift {A} (r : result A) : io A := fun w => (r, w).

Definition print (s : string) : io unit := fun w =>
  (Ok (), {| stdout := stdout w ++ [s]; stderr := stderr w; sent := sent w |}).

Definition eprint (s : string) : io unit := fun w =>
  (Ok (), {| stdout := stdout w; stderr := stderr w ++ [s]; sent := sent w |}).

Definition sys_exit {A} (code : Z) : io A := raise (SystemExit code).

(** [try: body except ...: handler]: [handler e] is [None] when no
    [except] clause matches [e]. *)
Definition try_except {A} (body : io A) (handler : exn -> option (io A)) : io A :=
  fun w =>
    match body w with
    | (Raise e, w') =>
        match handler e with
        | Some k => k w'
        | None => (Raise e, w')
        end
    | r => r
    end.

Definition requests_get (h : host) (url : string)
    (params : gmap string value) (headers : gmap string string) : io response :=
  fun w =>
    let rq := {| url := url; params := params; headers := headers |} in
    let w' := {| stdout := stdout w; stderr := stderr w; sent := sent w ++ [rq] |} in
    match network h rq with
    | Unreachable msg => (Raise (RequestException msg), w')
    | Answer r => (Ok r, w')
    end.

Definition raise_for_status (r : response) : io unit :=
  if (400 <=? status_code r) && (status_code r <? 600)
  then raise (HTTPError (status_code r) (error_text r))
  else mret ().

(** The exit status of the process after [main]: 0 when it returns,
    the code of a [SystemExit], 1 after any other exception (Python then
    prints a traceback, which [stderr] does not record). *)
Definition exit_status (r : result unit) : Z :=
  match r with
  | Ok _ => 0
  | Raise (SystemExit code) => code
  | Raise _ => 1
  end.

(** ** Fetcher *)

Definition get_travel_destinations (h : host) (departure_id : string)
    (adults : Z) (time_period interests currency gl hl : string)
    (max_price : option Z) (travel_class stops : string) : io value :=
  match environ h !! "SEARCHAPI_API_KEY" with
  | None | Some EmptyString =>
      raise (ValueError
        ("SEARCHAPI_API_KEY environment variable is not set. "
         +:+ "Please set it with: export SEARCHAPI_API_KEY='your_api_key'"))
  | Some api_key =>
      let base_url := "https://www.searchapi.io/api/v1/search" in
      let params : gmap string value :=
        {[ "engine" := VStr "google_travel_explore";
           "departure_id" := VStr departure_id;
           "adults" := VInt adults;
           "time_period" := VStr time_period;
           "interests" := VStr interests;
           "currency" := VStr currency;
           "gl" := VStr gl;
           "hl" := VStr hl;
           "travel_class" := VStr travel_class;
           "stops" := VStr stops ]} in
      let params :=
        match max_price with
        | Some m => <["max_price" := VInt m]> params
        | None => params
        end in
      let headers : gmap string string :=
        {[ "Authorization" := "Bearer " +:+ api_key ]} in
      response ← requests_get h base_url params headers;
      raise_for_status response;;
      lift (json response)
  end.

(** The parsed command line: [parser.parse_args()]. *)
Module args.
Record t := {
  departure : string;
  adults : Z;
  period : string;
  interests : string;
  currency : string;
  max_price : option Z;
  travel_class : string;
  stops : string;
  limit : Z
}.
End args.

(** The options as given on the command line, each optional. *)
Module cli.
Record t := {
  departure : option string;
  adults : option Z;
  period : option string;
  interests : option string;
  currency : option string;
  max_price : option Z;
  travel_class : option string;
  stops : option string;
  limit : option Z
}.
End cli.

(** The [default=] of each [add_argument] call; [--max-price] has none
    and stays [None]. *)
Definition parse_args (c : cli.t) : args.t :=
  {| args.departure := default "ZRH" (cli.departure c);
     args.adults := default 1 (cli.adults c);
     args.period := default "one_week_trip_in_the_next_six_months" (cli.period c);
     args.interests := default "popular" (cli.interests c);
     args.currency := default "CHF" (cli.currency c);
     args.max_price := cli.max_price c;
     args.travel_class := default "economy" (cli.travel_class c);
     args.stops := default "any" (cli.stops c);
     args.limit := default 20 (cli.limit c) |}.

Section Python.
Context `{Builtins}.

(** [str(v)], what an f-string field [{v}] expands to. *)
Definition py_str (v : value) : string :=
  match v with
  | VNone => "None"
  | VBool true => "True"
  | VBool false => "False"
  | VInt n => pretty n
  | VInf => "inf"
  | VStr s => s
  | VList _ | VDict _ => container_repr v
  end.

(** [a < b]. *)
Definition py_lt (a b : value) : result bool :=
  match a, b with
  | VInf, VInf => Ok false
  | VInf, (VInt _ | VBool _) => Ok false
  | (VInt _ | VBool _), VInf => Ok true
  | VStr s, VStr t => Ok (String.ltb s t)
  | VList l, VList k => list_lt l k
  | _, _ =>
      match as_int a, as_int b with
      | Some m, Some n => Ok (m <? n)
      | _, _ => Raise TypeError
      end
  end.

(** ** Ranker *)

(** The inner function of [sort_by_cheapest]. *)
Definition get_price (dest : value) : result value :=
  flight ← py_get dest "flight" (VDict ∅);
  price ← py_get flight "price" VNone;
  match price with
  | VNone => Ok VInf
  | _ => Ok price
  end.

(** [sorted(l, key=f)]: the keys are computed first, in list order; the
    records are then ordered by a stable sort that compares keys with [<]
    only.  [insert_by_key] puts a record in front of the first record
    whose key is not smaller than its own. *)
Fixpoint insert_by_key (x : value * value) (l : list (value * value))
    : result (list (value * value)) :=
  match l with
  | [] => Ok [x]
  | y :: l' =>
      b ← py_lt y.1 x.1;
      if b : bool then (y ::.) <$> insert_by_key x l' else Ok (x :: y :: l')
  end.

Fixpoint sort_by_key (l : list (value * value)) : result (list (value * value)) :=
  match l with
  | [] => Ok []
  | x :: l' => s ← sort_by_key l'; insert_by_key x s
  end.

Definition sorted (key : value -> result value) (iterable : value)
    : result (list value) :=
  l ← py_iter iterable;
  ks ← mapM key l;
  s ← sort_by_key (zip ks l);
  Ok (s.*2).

Definition sort_by_cheapest (destinations : value) : result (list value) :=
  sorted get_price destinations.

(** ** Presenter *)

(** [urllib.parse.quote(s)] with its default [safe="/"]: the UTF-8 bytes
    of [s], each kept when it is an ASCII letter, a digit or one of
    [_.-~/] and written [%XX] (upper-case hexadecimal) otherwise.  The
    library raises [UnicodeEncodeError] on a str with a lone surrogate;
    such a str has no UTF-8 encoding and is no [string] here, so [quote]
    speaks of well-formed text only, and so does everything built on it. *)
Definition never_quoted (c : ascii) : bool :=
  let n := N_of_ascii c in
  ((48 <=? n) && (n <=? 57) || (65 <=? n) && (n <=? 90)
   || (97 <=? n) && (n <=? 122))%N
  || bool_decide (c ∈ ["_"; "."; "-"; "~"; "/"]%char).

Definition hex_digit (n : N) : ascii :=
  ascii_of_N (if (n <? 10)%N then 48 + n else 55 + n)%N.

Definition quote_byte (c : ascii) : string :=
  if never_quoted c then String c ""
  else
    let n := N_of_ascii c in
    String "%" (String (hex_digit (n / 16)) (String (hex_digit (n mod 16)) "")).

Fixpoint quote (s : string) : string :=
  match s with
  | EmptyString => ""
  | String c s' => quote_byte c +:+ quote s'
  end.

Definition build_flight_link (departure_id : string)
    (dest_airport outbound_date return_date : value)
    (adults : Z) (currency : string) : string :=
  let base_url := "https://www.google.com/travel/flights" in
  let query :=
    "flights from " +:+ departure_id +:+ " to " +:+ py_str dest_airport
    +:+ " on " +:+ py_str outbound_date
    +:+ " returning " +:+ py_str return_date in
  base_url +:+ "?q=" +:+ quote query +:+ "&curr=" +:+ currency
  +:+ "&px=" +:+ pretty adults.

(** The local variables of [format_destination] before its [return]. *)
Record locals := {
  name : value;
  country : value;
  price : value;
  airline : value;
  stops : value;
  duration : value;
  airport_code : value;
  outbound : value;
  return_date : value;
  cost_str : string;
  stop_text : string;
  flight_link : string
}.

Definition bindings (dest : value) (currency departure_id : string) (adults : Z)
    : result locals :=
  name ← py_get dest "name" (VStr "Unknown");
  country ← py_get dest "country" (VStr "Unknown");
  flight ← py_get dest "flight" (VDict ∅);
  price ← py_get flight "price" (VStr "N/A");
  airline ← py_get flight "airline_name" (VStr "Unknown");
  stops ← py_get flight "stops" (VStr "N/A");
  duration ← py_get flight "flight_duration" (VStr "N/A");
  airport_code ← py_get flight "airport_code" (VStr "");
  outbound ← py_get dest "outbound_date" (VStr "N/A");
  return_date ← py_get dest "return_date" (VStr "N/A");
  avg_cost_night ← py_get dest "avg_cost_per_night" VNone;
  let cost_str :=
    if truthy avg_cost_night
    then py_str avg_cost_night +:+ " " +:+ currency +:+ "/night"
    else "N/A" in
  let stop_text :=
    if eq_int stops 0 then "direct" else py_str stops +:+ " stop(s)" in
  let flight_link :=
    if truthy airport_code && negb (eq_str outbound "N/A")
       && negb (eq_str return_date "N/A")
    then build_flight_link departure_id airport_code outbound return_date
           adults currency
    else "" in
  Ok {| name := name; country := country; price := price;
        airline := airline; stops := stops; duration := duration;
        airport_code := airport_code; outbound := outbound;
        return_date := return_date; cost_str := cost_str;
        stop_text := stop_text; flight_link := flight_link |}.

Definition nl : string := String "010" "".

(** The f-string that [format_destination] returns. *)
Definition render (rank : Z) (currency : string) (v : locals) : string :=
  nl +:+ pretty rank +:+ ". " +:+ py_str (name v) +:+ ", "
     +:+ py_str (country v) +:+ nl
  +:+ "   Flight: " +:+ py_str (price v) +:+ " " +:+ currency +:+ " ("
     +:+ py_str (airline v) +:+ ", " +:+ stop_text v +:+ ", "
     +:+ py_str (duration v) +:+ ")" +:+ nl
  +:+ "   Dates: " +:+ py_str (outbound v) +:+ " -> "
     +:+ py_str (return_date v) +:+ nl
  +:+ "   Avg accommodation: " +:+ cost_str v +:+ nl
  +:+ "   Book: " +:+ flight_link v +:+ nl.

Definition format_destination (dest : value) (rank : Z)
    (currency departure_id : string) (adults : Z) : result string :=
  v ← bindings dest currency departure_id adults;
  Ok (render rank currency v).

(** ** Orchestrator *)

(** The [except] clauses of [main]. *)
Definition handler (e : exn) : option (io unit) :=
  match e with
  | ValueError msg => Some (
      eprint ("❌ Configuration error: " +:+ msg);;
      sys_exit 1)
  | HTTPError status msg => Some (
      eprint ("❌ API error: " +:+ msg);;
      (if status =? 401
       then eprint "   Check your SEARCHAPI_API_KEY is valid"
       else if status =? 429
       then eprint "   Rate limit exceeded. Please wait and try again."
       else mret ());;
      sys_exit 1)
  | RequestException msg => Some (
      eprint ("❌ Network error: " +:+ msg);;
      sys_exit 1)
  | _ => None
  end.

(** [for rank, dest in enumerate(display_destinations, rank): print(...)] *)
Fixpoint print_ranked (a : args.t) (rank : Z) (display_destinations : list value)
    : io unit :=
  match display_destinations with
  | [] => mret ()
  | dest :: rest =>
      block ← lift (format_destination dest rank (args.currency a)
                      (args.departure a) (args.adults a));
      print block;;
      print_ranked a (rank + 1) rest
  end.

Definition main (h : host) (a : args.t) : io unit :=
  print ("🌍 Fetching travel destinations from " +:+ args.departure a +:+ "...");;
  print ("   Interests: " +:+ args.interests a +:+ " | Period: " +:+ args.period a);;
  print ("   Class: " +:+ args.travel_class a +:+ " | Stops: " +:+ args.stops a);;
  print "";;
  try_except
    (response ← get_travel_destinations h (args.departure a) (args.adults a)
                  (args.period a) (args.interests a) (args.currency a)
                  "CH" "en-US" (args.max_price a) (args.travel_class a)
                  (args.stops a);
     destinations ← lift (py_get response "destinations" (VList []));
     if negb (truthy destinations) then
       print "No destinations found. Try different search parameters.";;
       sys_exit 0
     else
       sorted_destinations ← lift (sort_by_cheapest destinations);
       let display_destinations :=
         slice_to sorted_destinations (args.limit a) in
       found ← lift (py_len destinations);
       print ("📋 Found " +:+ pretty found +:+ " destinations. Showing top "
              +:+ pretty (Z.of_nat (length display_destinations))
              +:+ " by cheapest price:" +:+ nl);;
       print (str_mul "=" 60);;
       print_ranked a 1 display_destinations;;
       print (str_mul "=" 60);;
       print (nl +:+ "💡 Tip: Use --help to see all available options"))
    handler.

(** Running the script: [main()] from a fresh process. *)
Definition run (h : host) (c : cli.t) : Z * world :=
  let (r, w) := main h (parse_args c) start in
  (exit_status r, w).

End Python.

(** ** Vocabulary of the statements *)

(** A record, as far as the Presenter reads it: an object whose ["flight"]
    member, when present, is an object. *)
Definition is_record (v : value) : bool :=
  match v with
  | VDict d =>
      match d !! "flight" with
      | None | Some (VDict _) => true
      | _ => false
      end
  | _ => false
  end.

(** The members of a record and of its flight object; [None] when the
    member is absent. *)
Definition member (dest : value) (k : string) : option value :=
  match dest with VDict d => d !! k | _ => None end.

Definition flight_member (dest : value) (k : string) : option value :=
  match member dest "flight" with Some f => member f k | None => None end.

(** A destination record as the provider documents it, as far as the
    Ranker reads it: an object whose ["flight"] member, when present, is an
    object whose ["price"] member, when present, is null or an integer. *)
Definition is_flight (f : value) : bool :=
  match f with
  | VDict m =>
      match m !! "price" with
      | None | Some VNone | Some (VInt _) => true
      | _ => false
      end
  | _ => false
  end.

Definition is_destination (v : value) : bool :=
  match v with
  | VDict d =>
      match d !! "flight" with
      | None => true
      | Some f => is_flight f
      end
  | _ => false
  end.

(** The sort key of a record as an extended integer: [None] is +∞. *)
Definition as_price (k : value) : option Z :=
  match k with VInt n => Some n | _ => None end.

Definition flight_price (dest : value) : option Z :=
  match get_price dest with Ok k => as_price k | Raise _ => None end.

(** [a <= b] on extended integers. *)
Definition price_le (a b : option Z) : Prop :=
  match a, b with
  | Some x, Some y => x <= y
  | _, None => True
  | None, Some _ => False
  end.

Definition price_ltb (a b : option Z) : bool :=
  match a, b with
  | Some x, Some y => x <? y
  | Some _, None => true
  | None, _ => false
  end.

(** The keys of destination records: an integer or +∞. *)
Definition number (k : value) : Prop :=
  match k with VInt _ | VInf => True | _ => False end.

(** Records paired with their keys, ordered by key. *)
Definition key_le (p q : value * value) : Prop :=
  price_le (as_price p.1) (as_price q.1).

Definition keyed (l : list (value * value)) : Prop :=
  Forall (fun p => number p.1) l.

Definition with_key (k : option Z) (p : value * value) : Prop :=
  as_price p.1 = k.

#[local] Instance with_key_dec k p : Decision (with_key k p) :=
  decide (as_price p.1 = k).

(** In [zip ks l] every record sits next to its own key. *)
Definition own_key (p : value * value) : Prop := get_price p.2 = Ok p.1.


(** The five lines of a block and the block itself, as the f-string that
    [format_destination] returns lays them out: an empty line is above the
    heading, and every line ends with a newline. *)
Definition heading_line (rank : Z) (name country : string) : string :=
  pretty rank +:+ ". " +:+ name +:+ ", " +:+ country.

Definition flight_line (price currency airline stop_text duration : string)
    : string :=
  "   Flight: " +:+ price +:+ " " +:+ currency +:+ " (" +:+ airline +:+ ", "
  +:+ stop_text +:+ ", " +:+ duration +:+ ")".

Definition dates_line (outbound return_date : string) : string :=
  "   Dates: " +:+ outbound +:+ " -> " +:+ return_date.

Definition accommodation_line (cost_str : string) : string :=
  "   Avg accommodation: " +:+ cost_str.

Definition book_line (flight_link : string) : string :=
  "   Book: " +:+ flight_link.

Definition block (heading flight dates accommodation book : string) : string :=
  String "010" "" +:+ heading +:+ String "010" "" +:+ flight
  +:+ String "010" "" +:+ dates +:+ String "010" "" +:+ accommodation
  +:+ String "010" "" +:+ book +:+ String "010" "".


(** The credential is set when the variable holds a non-empty text. *)
Definition no_key (h : host) : Prop :=
  environ h !! "SEARCHAPI_API_KEY" = None
  \/ environ h !! "SEARCHAPI_API_KEY" = Some "".

Definition has_key (h : host) : Prop :=
  exists key, environ h !! "SEARCHAPI_API_KEY" = Some key /\ key <> "".

(** The provider answers every request with a status that is no error
    and the JSON document [body]. *)
Definition provider_returns (h : host) (body : value) : Prop :=
  exists r, (forall rq, network h rq = Answer r)
    /\ (status_code r < 400 \/ 600 <= status_code r)
    /\ json r = Ok body.

(** What [main] prints first. *)
Definition banner (a : args.t) : list string :=
  [ "🌍 Fetching travel destinations from " +:+ args.departure a +:+ "...";
    "   Interests: " +:+ args.interests a +:+ " | Period: " +:+ args.period a;
    "   Class: " +:+ args.travel_class a +:+ " | Stops: " +:+ args.stops a;
    "" ].

Definition no_results : string :=
  "No destinations found. Try different search parameters.".

Definition found_line (found shown : Z) : string :=
  "📋 Found " +:+ pretty found +:+ " destinations. Showing top "
  +:+ pretty shown +:+ " by cheapest price:" +:+ nl.

Definition rule : string := str_mul "=" 60.

Definition tip : string :=
  nl +:+ "💡 Tip: Use --help to see all available options".

(** The whole listing: banner, summary count, the blocks between two
    separator lines, and the tip. *)
Definition listing (a : args.t) (found : nat) (blocks : list string)
    : list string :=
  banner a
  ++ [found_line (Z.of_nat found) (Z.of_nat (length blocks)); rule]
  ++ blocks ++ [rule; tip].

(** [blocks] are the formatted texts of [l], ranked from [rank] on. *)
Inductive ranked_blocks `{Builtins} (a : args.t)
    : Z -> list value -> list string -> Prop :=
  | ranked_nil rank : ranked_blocks a rank [] []
  | ranked_cons rank dest l block blocks :
      format_destination dest rank (args.currency a) (args.departure a)
        (args.adults a) = Ok block ->
      ranked_blocks a (rank + 1) l blocks ->
      ranked_blocks a rank (dest :: l) (block :: blocks).

(** The display-limit rule in the words of the specification: the program
    prints exactly min(L, n) blocks of the [n] destinations found. *)
Definition prints_min_of_limit `{Builtins} (h : host) (c : cli.t) (n : nat)
    : Prop :=
  exists blocks,
    stdout (run h c).2 = listing (parse_args c) n blocks
    /\ Z.of_nat (length blocks)
       = Z.min (args.limit (parse_args c)) (Z.of_nat n).

Definition key_missing : string :=
  "SEARCHAPI_API_KEY environment variable is not set. "
  +:+ "Please set it with: export SEARCHAPI_API_KEY='your_api_key'".

(** ** Sample data *)

(** A runtime for the closed examples: a container prints as [...], and
    two lists do not compare. *)
Definition sample_runtime : Builtins :=
  {| container_repr := fun _ => "..."; list_lt := fun _ _ => Raise TypeError |}.

Definition priced (n : string) (p : value) : value :=
  VDict {[ "name" := VStr n; "flight" := VDict {[ "price" := p ]} ]}.

Definition no_options : cli.t :=
  {| cli.departure := None; cli.adults := None; cli.period := None;
     cli.interests := None; cli.currency := None; cli.max_price := None;
     cli.travel_class := None; cli.stops := None; cli.limit := None |}.

(** A host without credential; its network is never reached. *)
Definition host_no_key : host :=
  {| environ := ∅; network := fun _ => Unreachable "no route to host" |}.

(** A host whose provider answers 200 with [body]. *)
Definition host_answering (body : value) : host :=
  {| environ := {[ "SEARCHAPI_API_KEY" := "secret" ]};
     network := fun _ =>
       Answer {| status_code := 200; error_text := ""; json := Ok body |} |}.

Definition limit_only (l : Z) : cli.t :=
  {| cli.departure := None; cli.adults := None; cli.period := None;
     cli.interests := None; cli.currency := None; cli.max_price := None;
     cli.travel_class := None; cli.stops := None; cli.limit := Some l |}.

Definition rec_A : value := priced "A" (VInt 500).
Definition rec_B : value := priced "B" (VInt 200).
Definition rec_C : value := priced "C" VNone.


(** A complete record. *)
Definition rec_full : value :=
  VDict {[ "name" := VStr "Porto"; "country" := VStr "Portugal";
           "flight" := VDict {[ "price" := VInt 120;
                                "airline_name" := VStr "TAP";
                                "stops" := VInt 2;
                                "flight_duration" := VInt 155;
                                "airport_code" := VStr "OPO" ]};
           "outbound_date" := VStr "2025-07-01";
           "return_date" := VStr "2025-07-08";
           "avg_cost_per_night" := VInt 0 ]}.

(** The bytes a quoted string is made of. *)
Definition url_char (c : ascii) : Prop := never_quoted c = true \/ c = "%"%char.

(** What the Fetcher makes of the network's answer: a transport failure
    and an error status are raised, the body of any other response is
    decoded. *)
Definition fetched (rp : reply) : result value :=
  match rp with
  | Unreachable msg => Raise (RequestException msg)
  | Answer r =>
      if (400 <=? status_code r) && (status_code r <? 600)
      then Raise (HTTPError (status_code r) (error_text r))
      else json r
  end.

(** The hint [main] adds to an API error. *)
Definition status_hint (status : Z) : list string :=
  if status =? 401 then ["   Check your SEARCHAPI_API_KEY is valid"]
  else if status =? 429
  then ["   Rate limit exceeded. Please wait and try again."]
  else [].

(** Hosts with the credential set whose provider fails: with an error
    status, in transport, and with a body that is no JSON. *)
Definition host_failing (status : Z) (text : string) : host :=
  {| environ := {[ "SEARCHAPI_API_KEY" := "secret" ]};
     network := fun _ =>
       Answer {| status_code := status; error_text := text;
                 json := Ok VNone |} |}.

Definition host_unreachable : host :=
  {| environ := {[ "SEARCHAPI_API_KEY" := "secret" ]};
     network := fun _ => Unreachable "connection timed out" |}.

Definition host_garbled : host :=
  {| environ := {[ "SEARCHAPI_API_KEY" := "secret" ]};
     network := fun _ =>
       Answer {| status_code := 200; error_text := "";
                 json := Raise (ValueError "Expecting value: line 1 column 1 (char 0)") |} |}.

(** A record whose flight is null, and one whose price is a text. *)
Definition rec_null_flight : value :=
  VDict {[ "name" := VStr "Oslo"; "flight" := VNone ]}.

Definition rec_text_price : value := priced "D" (VStr "cheap").

Definition three_found : value :=
  VDict {[ "destinations" := VList [rec_A; rec_B; rec_C] ]}.

(** A text of letters, digits and [_.-~/] only, as an airport code or an
    ISO date is. *)
Definition plain (s : string) : bool :=
  forallb never_quoted (String.list_ascii_of_string s).

(** A computation that sends nothing. *)
Definition quiet {A} (m : io A) : Prop := forall w, sent (m w).2 = sent w.

(** * Properties *)

(** ** The Ranker's sort *)

Section Ranker.
Context `{Builtins}.

Lemma py_lt_number a b :
  number a -> number b -> py_lt a b = Ok (price_ltb (as_price a) (as_price b)).
Proof. destruct a, b; simpl; intros; tauto. Qed.

Lemma get_price_destination d :
  is_destination d = true -> exists k, get_price d = Ok k /\ number k.
Proof.
  destruct d as [| | | | | |m]; try discriminate. simpl.
  unfold get_price. simpl.
  destruct (m !! "flight") as [f|] eqn:Hf; simpl.
  - destruct f as [| | | | | |fm]; try discriminate. simpl.
    destruct (fm !! "price") as [[]|] eqn:Hp; simpl; try discriminate;
      intros _; eexists; split; eauto; simpl; auto.
  - rewrite lookup_empty. simpl. intros _. eexists; split; eauto. simpl; auto.
Qed.

Lemma price_le_trans a b c : price_le a b -> price_le b c -> price_le a c.
Proof. destruct a, b, c; simpl; intros; try tauto; lia. Qed.

Lemma price_ltb_true a b : price_ltb a b = true -> price_le a b /\ a <> b.
Proof.
  destruct a, b; simpl; try discriminate; intros Hl; split;
    try tauto; try discriminate.
  - lia.
  - intros [= ->]. lia.
Qed.

Lemma price_ltb_false a b : price_ltb a b = false -> price_le b a.
Proof. destruct a, b; simpl; try discriminate; intros; try tauto; lia. Qed.

Lemma insert_by_key_spec x l :
  number x.1 -> keyed l -> StronglySorted key_le l ->
  exists s, insert_by_key x l = Ok s /\ s ≡ₚ x :: l
    /\ StronglySorted key_le s
    /\ forall k, filter (with_key k) s = filter (with_key k) (x :: l).
Proof.
  intros Hx Hl Hs. induction l as [|y l IH]; simpl.
  - exists [x]. repeat split; auto. repeat constructor.
  - apply Forall_cons in Hl as [Hy Hl].
    apply StronglySorted_inv in Hs as [Hs Hyl].
    rewrite py_lt_number by assumption. simpl.
    destruct (price_ltb (as_price y.1) (as_price x.1)) eqn:Hlt.
    + destruct (IH Hl Hs) as (s & -> & Hp & Hss & Hf). simpl.
      apply price_ltb_true in Hlt as [Hle Hne].
      exists (y :: s). repeat split.
      * rewrite Hp. apply Permutation_swap.
      * constructor; [assumption|]. rewrite Hp. constructor; assumption.
      * intros k. rewrite (filter_cons _ y s), Hf, !filter_cons.
        unfold with_key. repeat case_decide; congruence.
    + apply price_ltb_false in Hlt.
      exists (x :: y :: l). repeat split; auto.
      constructor; [constructor; assumption|].
      constructor; [assumption|].
      eapply Forall_impl; [exact Hyl|]. intros z Hz.
      unfold key_le in *. eapply price_le_trans; eassumption.
Qed.

Lemma sort_by_key_spec l :
  keyed l ->
  exists s, sort_by_key l = Ok s /\ s ≡ₚ l /\ StronglySorted key_le s
    /\ forall k, filter (with_key k) s = filter (with_key k) l.
Proof.
  induction l as [|x l IH]; intros Hl; simpl.
  - exists []. repeat split; auto. constructor.
  - apply Forall_cons in Hl as [Hx Hl].
    destruct (IH Hl) as (s & -> & Hp & Hs & Hf). simpl.
    assert (Hk : keyed s) by (unfold keyed; rewrite Hp; exact Hl).
    destruct (insert_by_key_spec x s Hx Hk Hs) as (s' & -> & Hp' & Hs' & Hf').
    exists s'. repeat split; auto.
    + rewrite Hp', Hp. reflexivity.
    + intros k. rewrite Hf', !filter_cons, Hf. reflexivity.
Qed.

(** Whatever the keys are, a sort that returns has only reordered. *)
Lemma insert_by_key_perm x l s : insert_by_key x l = Ok s -> s ≡ₚ x :: l.
Proof.
  revert s. induction l as [|y l IH]; simpl; intros s.
  - intros [= <-]. reflexivity.
  - destruct (py_lt y.1 x.1) as [[]|]; simpl; try discriminate.
    + destruct (insert_by_key x l) as [s'|]; simpl; try discriminate.
      intros [= <-]. rewrite (IH s' eq_refl). apply Permutation_swap.
    + intros [= <-]. reflexivity.
Qed.

Lemma sort_by_key_perm l s : sort_by_key l = Ok s -> s ≡ₚ l.
Proof.
  revert s. induction l as [|x l IH]; simpl; intros s.
  - intros [= <-]. reflexivity.
  - destruct (sort_by_key l) as [s'|]; simpl; try discriminate.
    intros Hi. apply insert_by_key_perm in Hi. rewrite Hi, (IH s' eq_refl).
    reflexivity.
Qed.

Lemma mapM_Ok {A B} (f : A -> result B) l ks :
  mapM f l = Ok ks -> Forall2 (fun x k => f x = Ok k) l ks.
Proof.
  revert ks. induction l as [|x l IH]; simpl; intros ks.
  - intros [= <-]. constructor.
  - destruct (f x) as [k|] eqn:Hk; simpl; try discriminate.
    destruct (mapM f l) as [ks'|]; simpl; try discriminate.
    intros [= <-]. constructor; auto.
Qed.

Lemma mapM_get_price l :
  Forall (fun d => is_destination d = true) l ->
  exists ks, mapM get_price l = Ok ks.
Proof.
  induction 1 as [|d l Hd _ [ks IH]]; simpl.
  - eexists; reflexivity.
  - destruct (get_price_destination d Hd) as (k & -> & _). simpl.
    rewrite IH. simpl. eexists; reflexivity.
Qed.

Lemma zip_own_key l ks :
  Forall2 (fun d k => get_price d = Ok k) l ks -> Forall own_key (zip ks l).
Proof. induction 1; simpl; constructor; auto. Qed.

Lemma own_key_price p : own_key p -> flight_price p.2 = as_price p.1.
Proof. unfold own_key, flight_price. intros ->. reflexivity. Qed.

Lemma own_key_sorted s :
  Forall own_key s -> StronglySorted key_le s ->
  StronglySorted price_le (flight_price <$> s.*2).
Proof.
  intros Ho Hs. induction Hs as [|p s Hs IH Hp]; simpl; [constructor|].
  apply Forall_cons in Ho as [Hop Ho].
  constructor; [auto|].
  rewrite !Forall_fmap. rewrite Forall_forall in Hp, Ho.
  apply Forall_forall. intros q Hq. simpl.
  rewrite (own_key_price p Hop), (own_key_price q (Ho q Hq)).
  apply Hp, Hq.
Qed.

Lemma own_key_filter s k :
  Forall own_key s ->
  filter (fun d => flight_price d = k) s.*2 = (filter (with_key k) s).*2.
Proof.
  induction 1 as [|p s Hp _ IH]; [reflexivity|].
  rewrite fmap_cons, !filter_cons, IH. unfold with_key.
  rewrite (own_key_price p Hp). repeat case_decide; first [reflexivity|tauto].
Qed.

Lemma zip_keys_records l ks :
  Forall2 (fun d k => get_price d = Ok k) l ks -> (zip ks l).*2 = l.
Proof. intros Hf. apply snd_zip. apply Forall2_length in Hf. lia. Qed.

Lemma sort_by_cheapest_spec l :
  Forall (fun d => is_destination d = true) l ->
  exists out, sort_by_cheapest (VList l) = Ok out
    /\ out ≡ₚ l
    /\ StronglySorted price_le (flight_price <$> out)
    /\ forall p, filter (fun d => flight_price d = p) out
                 = filter (fun d => flight_price d = p) l.
Proof.
  intros Hl. unfold sort_by_cheapest, sorted. simpl.
  destruct (mapM_get_price l Hl) as [ks Hks]. rewrite Hks. simpl.
  apply mapM_Ok in Hks.
  assert (Hkeyed : keyed (zip ks l)).
  { clear -Hks Hl. induction Hks as [|d k l ks Hd _ IH]; simpl; [constructor|].
    apply Forall_cons in Hl as [Hdd Hl]. constructor; [simpl|exact (IH Hl)].
    destruct (get_price_destination d Hdd) as (k' & Hk' & Hn). congruence. }
  destruct (sort_by_key_spec _ Hkeyed) as (s & -> & Hp & Hs & Hf). simpl.
  pose proof (zip_own_key l ks Hks) as Hown.
  assert (Hown' : Forall own_key s) by (rewrite Hp; exact Hown).
  exists (s.*2). repeat split.
  - rewrite Hp, (zip_keys_records l ks Hks). reflexivity.
  - apply own_key_sorted; assumption.
  - intros p. rewrite (own_key_filter s p Hown'), Hf.
    rewrite <- (own_key_filter _ p Hown), (zip_keys_records l ks Hks).
    reflexivity.
Qed.

Lemma sort_by_cheapest_perm l out :
  sort_by_cheapest (VList l) = Ok out -> out ≡ₚ l.
Proof.
  unfold sort_by_cheapest, sorted. simpl.
  destruct (mapM get_price l) as [ks|] eqn:Hks; simpl; try discriminate.
  destruct (sort_by_key (zip ks l)) as [s|] eqn:Hs; simpl; try discriminate.
  intros [= <-]. apply sort_by_key_perm in Hs. rewrite Hs.
  rewrite (zip_keys_records l ks (mapM_Ok _ _ _ Hks)). reflexivity.
Qed.

Lemma flight_price_member d :
  is_destination d = true ->
  flight_price d
  = match flight_member d "price" with Some (VInt n) => Some n | _ => None end.
Proof.
  destruct d as [| | | | | |m]; try discriminate.
  unfold is_destination, flight_price, flight_member, member, get_price. simpl.
  destruct (m !! "flight") as [f|]; simpl.
  - destruct f as [| | | | | |fm]; try discriminate. simpl.
    destruct (fm !! "price") as [[]|]; try discriminate; reflexivity.
  - rewrite lookup_empty. reflexivity.
Qed.

(** The Ranker reads the price of the flight only: a ["price"] member of
    the record itself is no key. *)
Lemma top_level_price_is_no_key :
  sort_by_cheapest
    (VList [VDict {[ "name" := VStr "A"; "price" := VInt 500 ]};
            VDict {[ "name" := VStr "B"; "price" := VInt 200 ]}])
  = Ok [VDict {[ "name" := VStr "A"; "price" := VInt 500 ]};
        VDict {[ "name" := VStr "B"; "price" := VInt 200 ]}].
Proof. vm_compute. reflexivity. Qed.

Lemma StronglySorted_lookup_lt {A} (R : relation A) (l : list A) i j a b :
  StronglySorted R l -> l !! i = Some a -> l !! j = Some b -> (i < j)%nat ->
  R a b.
Proof.
  intros Hs. revert i j. induction Hs as [|x l Hs IH Hx]; intros i j Hi Hj Hlt.
  - discriminate.
  - destruct j as [|j]; [lia|]. simpl in Hj. destruct i as [|i]; simpl in Hi.
    + injection Hi as <-. rewrite Forall_forall in Hx.
      apply Hx. eapply list_elem_of_lookup_2; eassumption.
    + apply (IH i j); auto. lia.
Qed.

(** C1. For every list of destination records, [sort_by_cheapest] returns
    the records in ascending order of flight price, a record without a
    flight price (absent or null) counting as +∞: every record is at most
    as expensive as all records after it, so every priced record comes
    before every record without price.  The sort is stable: for each key,
    +∞ included, the records with that key are in their original order.
    The key of a record is the integer in the ["price"] member of its
    flight, and +∞ when there is none.  On the records A (500), B (200),
    C (null) the result is B, A, C. *)
Theorem sort_by_cheapest_ascending_stable :
  (forall d, is_destination d = true ->
     flight_price d
     = match flight_member d "price" with Some (VInt n) => Some n | _ => None end)
  /\
  (forall l, Forall (fun d => is_destination d = true) l ->
     exists out, sort_by_cheapest (VList l) = Ok out
       /\ StronglySorted price_le (flight_price <$> out)
       /\ (forall i j a b, out !! i = Some a -> out !! j = Some b ->
             flight_price a = None -> is_Some (flight_price b) -> (j < i)%nat)
       /\ (forall p, filter (fun d => flight_price d = p) out
                    = filter (fun d => flight_price d = p) l))
  /\ sort_by_cheapest (VList [rec_A; rec_B; rec_C]) = Ok [rec_B; rec_A; rec_C].
Proof.
  split; [exact flight_price_member|].
  split; [|vm_compute; reflexivity].
  intros l Hl. destruct (sort_by_cheapest_spec l Hl) as (out & Ho & _ & Hs & Hf).
  exists out. repeat split; auto.
  intros i j a b Hi Hj Ha [n Hb].
  destruct (decide (j < i)%nat) as [|Hge]; [assumption|exfalso].
  destruct (decide (i = j)) as [->|Hne]; [congruence|].
  assert (Hlt : (i < j)%nat) by lia.
  pose proof (StronglySorted_lookup_lt price_le (flight_price <$> out) i j
                (flight_price a) (flight_price b) Hs) as Hr.
  rewrite !list_lookup_fmap, Hi, Hj in Hr.
  specialize (Hr eq_refl eq_refl Hlt). rewrite Ha, Hb in Hr. exact Hr.
Qed.

(** C6. [sort_by_cheapest] neither drops nor duplicates a record: on every
    list of destination records it returns a list of the same length that
    is a permutation of the input; and on any list at all, whenever it
    returns, the result has the length of the input and is a permutation
    of it. *)
Theorem sort_by_cheapest_permutation :
  (forall l, Forall (fun d => is_destination d = true) l ->
     exists out, sort_by_cheapest (VList l) = Ok out
       /\ length out = length l /\ out ≡ₚ l)
  /\ (forall l out, sort_by_cheapest (VList l) = Ok out ->
       length out = length l /\ out ≡ₚ l).
Proof.
  split.
  - intros l Hl. destruct (sort_by_cheapest_spec l Hl) as (out & Ho & Hp & _).
    exists out. repeat split; auto. rewrite Hp. reflexivity.
  - intros l out Ho. apply sort_by_cheapest_perm in Ho.
    split; [rewrite Ho|]; auto.
Qed.

End Ranker.

Lemma sort_by_cheapest_ascending_stable_witness :
  Forall (fun d => is_destination d = true) [rec_C; rec_A; rec_B; rec_A]
  /\ exists out,
       sort_by_cheapest (H := sample_runtime) (VList [rec_C; rec_A; rec_B; rec_A]) = Ok out
       /\ StronglySorted price_le (flight_price <$> out)
       /\ (forall i j a b, out !! i = Some a -> out !! j = Some b ->
             flight_price a = None -> is_Some (flight_price b) -> (j < i)%nat)
       /\ (forall p, filter (fun d => flight_price d = p) out
                    = filter (fun d => flight_price d = p)
                        [rec_C; rec_A; rec_B; rec_A]).
Proof.
  assert (Hl : Forall (fun d => is_destination d = true)
                 [rec_C; rec_A; rec_B; rec_A])
    by (repeat constructor).
  split; [exact Hl|].
  exact (proj1 (proj2 (@sort_by_cheapest_ascending_stable sample_runtime)) _ Hl).
Defined.

Lemma sort_by_cheapest_permutation_witness :
  Forall (fun d => is_destination d = true) [rec_A; rec_B; rec_C]
  /\ exists out,
       sort_by_cheapest (H := sample_runtime) (VList [rec_A; rec_B; rec_C]) = Ok out
       /\ length out = length [rec_A; rec_B; rec_C]
       /\ out ≡ₚ [rec_A; rec_B; rec_C].
Proof.
  assert (Hl : Forall (fun d => is_destination d = true) [rec_A; rec_B; rec_C])
    by (repeat constructor).
  split; [exact Hl|].
  exact (proj1 (@sort_by_cheapest_permutation sample_runtime) _ Hl).
Defined.

(** ** The Presenter *)

Section Presenter.
Context `{Builtins}.



(** On a record [bindings] returns, and every local variable is the
    member it is read from or the default of its [get]. *)
Lemma bindings_fields dest currency departure_id adults :
  is_record dest = true ->
  exists v, bindings dest currency departure_id adults = Ok v
    /\ name v = default (VStr "Unknown") (member dest "name")
    /\ country v = default (VStr "Unknown") (member dest "country")
    /\ price v = default (VStr "N/A") (flight_member dest "price")
    /\ airline v = default (VStr "Unknown") (flight_member dest "airline_name")
    /\ stops v = default (VStr "N/A") (flight_member dest "stops")
    /\ duration v = default (VStr "N/A") (flight_member dest "flight_duration")
    /\ airport_code v = default (VStr "") (flight_member dest "airport_code")
    /\ outbound v = default (VStr "N/A") (member dest "outbound_date")
    /\ return_date v = default (VStr "N/A") (member dest "return_date")
    /\ cost_str v =
         (let c := default VNone (member dest "avg_cost_per_night") in
          if truthy c then py_str c +:+ " " +:+ currency +:+ "/night" else "N/A")
    /\ stop_text v =
         (if eq_int (stops v) 0 then "direct" else py_str (stops v) +:+ " stop(s)")
    /\ flight_link v =
         (if truthy (airport_code v) && negb (eq_str (outbound v) "N/A")
             && negb (eq_str (return_date v) "N/A")
          then build_flight_link departure_id (airport_code v) (outbound v)
                 (return_date v) adults currency
          else "").
Proof.
  destruct dest as [| | | | | |d]; try discriminate.
  unfold is_record, bindings, flight_member, member. simpl.
  destruct (d !! "flight") as [[| | | | | |fm]|] eqn:Hf; try discriminate;
    intros _; simpl; eexists; (split; [reflexivity|]); simpl;
    rewrite ?lookup_empty; repeat split.
Qed.

Lemma hex_digit_never_quoted n : (n < 16)%N -> never_quoted (hex_digit n) = true.
Proof.
  intros Hn.
  assert (Hc : n ∈ (N.of_nat <$> seq 0 16)).
  { apply list_elem_of_fmap. exists (N.to_nat n). split; [lia|].
    apply list_elem_of_In, in_seq. lia. }
  simpl in Hc. repeat (apply elem_of_cons in Hc as [->|Hc]; [reflexivity|]).
  inversion Hc.
Qed.

Lemma quote_byte_url_char c : Forall url_char (String.list_ascii_of_string (quote_byte c)).
Proof.
  unfold quote_byte. destruct (never_quoted c) eqn:Hc; simpl.
  - apply Forall_cons. split; [left; assumption|constructor].
  - assert (Hlt : (N_of_ascii c < 256)%N) by apply N_ascii_bounded.
    repeat (apply Forall_cons; split); [| | |constructor].
    + right; reflexivity.
    + left. apply hex_digit_never_quoted. apply N.Div0.div_lt_upper_bound. lia.
    + left. apply hex_digit_never_quoted. apply N.mod_lt. lia.
Qed.

Lemma list_ascii_of_string_app s t :
  String.list_ascii_of_string (s +:+ t) = String.list_ascii_of_string s ++ String.list_ascii_of_string t.
Proof. induction s as [|c s IH]; simpl; [reflexivity|]. rewrite <- IH. reflexivity. Qed.

Lemma quote_url_char s : Forall url_char (String.list_ascii_of_string (quote s)).
Proof.
  induction s as [|c s IH]; simpl; [constructor|].
  rewrite list_ascii_of_string_app. apply Forall_app. split; [|exact IH].
  apply quote_byte_url_char.
Qed.


Lemma flight_member_record dest k x :
  flight_member dest k = Some x -> is_record dest = true.
Proof.
  destruct dest as [| | | | | |d]; try discriminate.
  unfold flight_member, is_record, member.
  destruct (d !! "flight") as [[]|]; try discriminate. reflexivity.
Qed.

Lemma format_destination_bindings dest rank currency departure_id adults v :
  bindings dest currency departure_id adults = Ok v ->
  format_destination dest rank currency departure_id adults
  = Ok (render rank currency v).
Proof. unfold format_destination. intros ->. reflexivity. Qed.

Lemma append_assoc (s t u : string) : (s +:+ t) +:+ u = s +:+ (t +:+ u).
Proof.
  induction s as [|c s IH]; [reflexivity|].
  change (String c ((s +:+ t) +:+ u) = String c (s +:+ (t +:+ u))).
  rewrite IH. reflexivity.
Qed.

(** The text that [format_destination] returns, line by line. *)
Lemma render_block rank currency v :
  render rank currency v
  = block (heading_line rank (py_str (name v)) (py_str (country v)))
      (flight_line (py_str (price v)) currency (py_str (airline v))
         (stop_text v) (py_str (duration v)))
      (dates_line (py_str (outbound v)) (py_str (return_date v)))
      (accommodation_line (cost_str v))
      (book_line (flight_link v)).
Proof.
  unfold render, block, heading_line, flight_line, dates_line,
    accommodation_line, book_line, nl.
  rewrite !append_assoc. reflexivity.
Qed.

Lemma format_destination_block dest rank currency departure_id adults v :
  bindings dest currency departure_id adults = Ok v ->
  format_destination dest rank currency departure_id adults
  = Ok (block (heading_line rank (py_str (name v)) (py_str (country v)))
          (flight_line (py_str (price v)) currency (py_str (airline v))
             (stop_text v) (py_str (duration v)))
          (dates_line (py_str (outbound v)) (py_str (return_date v)))
          (accommodation_line (cost_str v))
          (book_line (flight_link v))).
Proof.
  intros Hb. rewrite (format_destination_bindings _ rank _ _ _ _ Hb).
  rewrite render_block. reflexivity.
Qed.

(** A member that is present and null is not absent: [None] has no [get]. *)
Lemma null_flight_raises rank currency departure_id adults :
  format_destination (VDict {[ "flight" := VNone ]}) rank currency departure_id
    adults
  = Raise AttributeError.
Proof. reflexivity. Qed.


(** C5. The Presenter shows a stop count of 0 as "direct" and any other
    integer [n] as "<n> stop(s)", 2 as "2 stop(s)": the returned block has
    that text in its flight line, between the airline and the duration. *)
Theorem stop_count_display dest rank currency departure_id adults n :
  flight_member dest "stops" = Some (VInt n) ->
  exists v shown,
    bindings dest currency departure_id adults = Ok v
    /\ format_destination dest rank currency departure_id adults
       = Ok (block (heading_line rank (py_str (name v)) (py_str (country v)))
               (flight_line (py_str (price v)) currency (py_str (airline v))
                  shown (py_str (duration v)))
               (dates_line (py_str (outbound v)) (py_str (return_date v)))
               (accommodation_line (cost_str v))
               (book_line (flight_link v)))
    /\ (n = 0 -> shown = "direct")
    /\ (n <> 0 -> shown = pretty n +:+ " stop(s)")
    /\ (n = 2 -> shown = "2 stop(s)").
Proof.
  intros Hs.
  destruct (bindings_fields dest currency departure_id adults
              (flight_member_record _ _ _ Hs))
    as (v & Hb & _ & _ & _ & _ & Hst & _ & _ & _ & _ & _ & Htxt & _).
  exists v, (stop_text v). split; [exact Hb|].
  split; [apply format_destination_block, Hb|].
  rewrite Htxt, Hst, Hs. simpl. unfold eq_int. simpl.
  split; [|split].
  - intros ->. reflexivity.
  - intros Hn. apply Z.eqb_neq in Hn. rewrite Hn. reflexivity.
  - intros ->. reflexivity.
Qed.


(** C10. When the average nightly cost is present but falsy, as 0 is, the
    accommodation line of the returned block reads
    "   Avg accommodation: N/A", not "0 <currency>/night". *)
Theorem falsy_cost_unavailable :
  (forall dest rank currency departure_id adults c,
     is_record dest = true ->
     member dest "avg_cost_per_night" = Some c ->
     truthy c = false ->
     exists v,
       bindings dest currency departure_id adults = Ok v
       /\ format_destination dest rank currency departure_id adults
          = Ok (block (heading_line rank (py_str (name v)) (py_str (country v)))
                  (flight_line (py_str (price v)) currency (py_str (airline v))
                     (stop_text v) (py_str (duration v)))
                  (dates_line (py_str (outbound v)) (py_str (return_date v)))
                  (accommodation_line "N/A")
                  (book_line (flight_link v))))
  /\ truthy (VInt 0) = false
  /\ accommodation_line "N/A" = "   Avg accommodation: N/A".
Proof.
  split; [|split; reflexivity].
  intros dest rank currency departure_id adults c Hr Hc Ht.
  destruct (bindings_fields dest currency departure_id adults Hr)
    as (v & Hb & _ & _ & _ & _ & _ & _ & _ & _ & _ & Hcs & _).
  exists v. split; [exact Hb|].
  rewrite (format_destination_block _ rank _ _ _ _ Hb).
  rewrite Hcs, Hc. simpl. rewrite Ht. reflexivity.
Qed.

End Presenter.




Lemma stop_count_display_witness :
  flight_member rec_full "stops" = Some (VInt 2)
  /\ exists heading p a d dates accommodation book,
       format_destination (H := sample_runtime) rec_full 1 "CHF" "ZRH" 1
       = Ok (block heading (flight_line p "CHF" a "2 stop(s)" d)
               dates accommodation book).
Proof.
  split; [reflexivity|].
  destruct (@stop_count_display sample_runtime rec_full 1 "CHF" "ZRH" 1 2 eq_refl)
    as (v & shown & _ & Hf & _ & _ & Htwo).
  eexists _, _, _, _, _, _, _. rewrite Hf, (Htwo eq_refl). reflexivity.
Defined.


Lemma falsy_cost_unavailable_witness :
  (is_record rec_full = true
   /\ member rec_full "avg_cost_per_night" = Some (VInt 0)
   /\ truthy (VInt 0) = false)
  /\ exists heading flight dates book,
       format_destination (H := sample_runtime) rec_full 1 "CHF" "ZRH" 1
       = Ok (block heading flight dates (accommodation_line "N/A") book).
Proof.
  split; [repeat split|].
  destruct (proj1 (@falsy_cost_unavailable sample_runtime)
              rec_full 1 "CHF" "ZRH" 1 (VInt 0) eq_refl eq_refl eq_refl)
    as (v & _ & Hf).
  eexists _, _, _, _. exact Hf.
Defined.

(** ** The Fetcher *)

Lemma fetch_no_key h departure_id adults time_period interests currency gl hl
    max_price travel_class stops w :
  no_key h ->
  get_travel_destinations h departure_id adults time_period interests currency
    gl hl max_price travel_class stops w
  = (Raise (ValueError key_missing), w).
Proof. unfold get_travel_destinations. intros [-> | ->]; reflexivity. Qed.

(** C9. With the credential set, the Fetcher sends one request to the
    search endpoint.  Its query parameters hold ["max_price"] exactly when
    the optional maximum price is given, and then with that value; the
    engine, the departure code, the number of adults, the time period, the
    interests, the currency, both locale codes, the travel class and the
    stop preference are there in every case. *)
Theorem request_parameters h departure_id adults time_period interests
    currency gl hl max_price travel_class stops w :
  has_key h ->
  exists rq,
    sent (get_travel_destinations h departure_id adults time_period interests
            currency gl hl max_price travel_class stops w).2
    = sent w ++ [rq]
    /\ url rq = "https://www.searchapi.io/api/v1/search"
    /\ params rq !! "max_price" = VInt <$> max_price
    /\ (is_Some (params rq !! "max_price") <-> is_Some max_price)
    /\ params rq !! "engine" = Some (VStr "google_travel_explore")
    /\ params rq !! "departure_id" = Some (VStr departure_id)
    /\ params rq !! "adults" = Some (VInt adults)
    /\ params rq !! "time_period" = Some (VStr time_period)
    /\ params rq !! "interests" = Some (VStr interests)
    /\ params rq !! "currency" = Some (VStr currency)
    /\ params rq !! "gl" = Some (VStr gl)
    /\ params rq !! "hl" = Some (VStr hl)
    /\ params rq !! "travel_class" = Some (VStr travel_class)
    /\ params rq !! "stops" = Some (VStr stops).
Proof.
  intros (key & Hk & Hne).
  unfold get_travel_destinations. rewrite Hk.
  destruct key as [|k0 key]; [congruence|].
  unfold mbind, io_bind, requests_get.
  eexists. split.
  { destruct (network h _) as [msg|r]; [reflexivity|].
    unfold raise_for_status.
    destruct ((400 <=? status_code r) && (status_code r <? 600)); reflexivity. }
  simpl. split; [reflexivity|].
  assert (Hm : forall p : gmap string value,
             p !! "max_price" = None ->
             match max_price with
             | Some m => <["max_price" := VInt m]> p
             | None => p
             end !! "max_price" = VInt <$> max_price).
  { intros p Hp. destruct max_price; simpl; [apply lookup_insert_eq|exact Hp]. }
  split; [apply Hm; reflexivity|].
  split; [rewrite Hm by reflexivity; apply fmap_is_Some|].
  destruct max_price as [m|]; repeat (split; [reflexivity|]); reflexivity.
Qed.

Lemma request_parameters_witness :
  has_key {| environ := {[ "SEARCHAPI_API_KEY" := "secret" ]};
             network := fun _ => Unreachable "timed out" |}
  /\ exists rq,
       params rq !! "max_price" = Some (VInt 300)
       /\ params rq !! "stops" = Some (VStr "nonstop").
Proof.
  assert (Hk : has_key {| environ := {[ "SEARCHAPI_API_KEY" := "secret" ]};
                          network := fun _ => Unreachable "timed out" |})
    by (exists "secret"; split; [reflexivity|discriminate]).
  split; [exact Hk|].
  destruct (request_parameters _ "ZRH" 2 "one_week_trip_in_the_next_six_months"
              "beaches" "EUR" "CH" "en-US" (Some 300) "economy" "nonstop"
              start Hk)
    as (rq & _ & _ & Hm & _ & _ & _ & _ & _ & _ & _ & _ & _ & _ & Hs).
  exists rq. split; [exact Hm|exact Hs].
Defined.

(** C3. Without the credential (the variable unset or empty),
    [get_travel_destinations] raises the configuration error and sends
    nothing; the program then prints the banner, writes the diagnostic
    "Configuration error: ..." to stderr, exits with status 1, and has sent
    no request. *)
Theorem missing_credential_fails_fast `{Builtins} h c :
  no_key h ->
  (forall departure_id adults time_period interests currency gl hl max_price
          travel_class stops w,
     get_travel_destinations h departure_id adults time_period interests
       currency gl hl max_price travel_class stops w
     = (Raise (ValueError key_missing), w))
  /\ run h c
     = (1, {| stdout := banner (parse_args c);
              stderr := ["❌ Configuration error: " +:+ key_missing];
              sent := [] |}).
Proof.
  intros Hk. split; [intros; apply fetch_no_key, Hk|].
  unfold run, main, mbind, io_bind, try_except. simpl.
  rewrite fetch_no_key by exact Hk. reflexivity.
Qed.

Lemma missing_credential_fails_fast_witness :
  no_key host_no_key
  /\ run (H := sample_runtime) host_no_key no_options
     = (1, {| stdout := banner (parse_args no_options);
              stderr := ["❌ Configuration error: " +:+ key_missing];
              sent := [] |}).
Proof.
  assert (Hk : no_key host_no_key) by (left; reflexivity).
  split; [exact Hk|].
  exact (proj2 (@missing_credential_fails_fast sample_runtime
                  host_no_key no_options Hk)).
Defined.

(** ** The Orchestrator *)

Section Orchestrator.
Context `{Builtins}.

Lemma fetch_ok h departure_id adults time_period interests currency gl hl
    max_price travel_class stops body :
  has_key h -> provider_returns h body ->
  exists rq, forall w,
    get_travel_destinations h departure_id adults time_period interests
      currency gl hl max_price travel_class stops w
    = (Ok body, {| stdout := stdout w; stderr := stderr w;
                   sent := sent w ++ [rq] |}).
Proof.
  intros (key & Hk & Hne) (r & Hnet & Hst & Hj).
  unfold get_travel_destinations. rewrite Hk.
  destruct key as [|k0 key]; [congruence|].
  eexists. intros w.
  unfold mbind, io_bind, requests_get. rewrite Hnet.
  unfold raise_for_status.
  replace ((400 <=? status_code r) && (status_code r <? 600)) with false
    by (symmetry; apply andb_false_iff; lia).
  unfold lift. simpl. rewrite Hj. reflexivity.
Qed.

Lemma is_destination_record d : is_destination d = true -> is_record d = true.
Proof.
  destruct d as [| | | | | |m]; try discriminate. simpl.
  destruct (m !! "flight") as [[]|]; try discriminate; reflexivity.
Qed.

Lemma ranked_blocks_length a rank l blocks :
  ranked_blocks a rank l blocks -> length blocks = length l.
Proof. induction 1; simpl; congruence. Qed.

Lemma print_ranked_records a l :
  Forall (fun d => is_record d = true) l ->
  forall rank, exists blocks,
    ranked_blocks a rank l blocks
    /\ forall w, print_ranked a rank l w
         = (Ok (), {| stdout := stdout w ++ blocks; stderr := stderr w;
                      sent := sent w |}).
Proof.
  induction 1 as [|d l Hd _ IH]; intros rank.
  - exists []. split; [constructor|]. intros [o e s]. simpl.
    rewrite app_nil_r. reflexivity.
  - destruct (bindings_fields d (args.currency a) (args.departure a)
                (args.adults a) Hd) as (v & Hb & _).
    apply (format_destination_bindings d rank) in Hb.
    destruct (IH (rank + 1)) as (blocks & Hr & Hp).
    exists (render rank (args.currency a) v :: blocks).
    split; [constructor; assumption|].
    intros w. simpl. unfold mbind, io_bind, lift, print. rewrite Hb, Hp. simpl.
    rewrite <- app_assoc. reflexivity.
Qed.

Lemma no_destinations_exit h c body :
  has_key h -> provider_returns h (VDict body) ->
  truthy (default (VList []) (body !! "destinations")) = false ->
  exists rq,
    run h c = (0, {| stdout := banner (parse_args c) ++ [no_results];
                     stderr := []; sent := [rq] |}).
Proof.
  intros Hk Hp Hd.
  destruct (fetch_ok h (args.departure (parse_args c))
              (args.adults (parse_args c)) (args.period (parse_args c))
              (args.interests (parse_args c)) (args.currency (parse_args c))
              "CH" "en-US" (args.max_price (parse_args c))
              (args.travel_class (parse_args c)) (args.stops (parse_args c))
              (VDict body) Hk Hp) as [rq Hrq].
  exists rq. unfold run, main, mbind, io_bind, try_except. simpl.
  rewrite Hrq. simpl. rewrite Hd. reflexivity.
Qed.

(** C7. When the response holds no destination list, or an empty one, the
    program prints the banner and the no-results notice and nothing else,
    writes nothing to stderr, and exits with status 0: neither a ranked
    list nor a formatted block is produced. *)
Theorem empty_result_exits_zero h c body :
  has_key h -> provider_returns h (VDict body) ->
  body !! "destinations" = None \/ body !! "destinations" = Some (VList []) ->
  exists rq,
    run h c = (0, {| stdout := banner (parse_args c) ++ [no_results];
                     stderr := []; sent := [rq] |}).
Proof.
  intros Hk Hp Hd. apply (no_destinations_exit h c body Hk Hp).
  destruct Hd as [-> | ->]; reflexivity.
Qed.

(** C4 (amended). For a display limit [L >= 0] and a non-empty list of [n]
    destination records in the response, the program ranks the list, keeps
    its first min(L, n) records and prints one block for each of them, in
    rank order from 1, between the separator lines: exactly min(L, n)
    blocks.  A limit that is not given is 20. *)
Theorem display_limit :
  (forall h c body ds,
     has_key h -> provider_returns h (VDict body) ->
     body !! "destinations" = Some (VList ds) -> ds <> [] ->
     Forall (fun d => is_destination d = true) ds ->
     0 <= args.limit (parse_args c) ->
     exists rq ranked blocks,
       sort_by_cheapest (VList ds) = Ok ranked
       /\ ranked_blocks (parse_args c) 1
            (take (Z.to_nat (args.limit (parse_args c))) ranked) blocks
       /\ Z.of_nat (length blocks)
          = Z.min (args.limit (parse_args c)) (Z.of_nat (length ds))
       /\ run h c = (0, {| stdout := listing (parse_args c) (length ds) blocks;
                           stderr := []; sent := [rq] |}))
  /\ (forall c, args.limit (parse_args c) = default 20 (cli.limit c)).
Proof.
  split; [|reflexivity].
  intros h c body ds Hk Hp Hd Hne Hds Hlim. unfold run.
  destruct (fetch_ok h (args.departure (parse_args c))
              (args.adults (parse_args c)) (args.period (parse_args c))
              (args.interests (parse_args c)) (args.currency (parse_args c))
              "CH" "en-US" (args.max_price (parse_args c))
              (args.travel_class (parse_args c)) (args.stops (parse_args c))
              (VDict body) Hk Hp) as [rq Hrq].
  destruct (sort_by_cheapest_spec ds Hds) as (ranked & Hs & Hperm & _).
  remember (parse_args c) as a eqn:Ha. clear Ha.
  assert (Hrec : Forall (fun d => is_record d = true)
                   (take (Z.to_nat (args.limit a)) ranked)).
  { apply Forall_take. rewrite Hperm.
    eapply Forall_impl; [exact Hds|]. apply is_destination_record. }
  destruct (print_ranked_records a _ Hrec 1) as (blocks & Hb & Hprint).
  assert (Hlen : length blocks
                 = Nat.min (Z.to_nat (args.limit a)) (length ds)).
  { rewrite (ranked_blocks_length _ _ _ _ Hb), length_take, Hperm. reflexivity. }
  exists rq, ranked, blocks.
  split; [exact Hs|]. split; [exact Hb|]. split; [lia|].
  unfold main, mbind, io_bind, try_except. simpl.
  rewrite Hrq. simpl. rewrite Hd. simpl.
  destruct ds as [|d0 ds']; [congruence|]. simpl.
  unfold lift. rewrite Hs. simpl.
  unfold slice_to. replace (args.limit a <? 0) with false by (symmetry; lia).
  rewrite Hprint. simpl. unfold listing, banner. simpl.
  rewrite (ranked_blocks_length _ _ _ _ Hb).
  rewrite <- !app_assoc. reflexivity.
Qed.

End Orchestrator.

Lemma empty_result_exits_zero_witness :
  (has_key (host_answering (VDict {[ "destinations" := VList [] ]}))
   /\ provider_returns (host_answering (VDict {[ "destinations" := VList [] ]}))
        (VDict {[ "destinations" := VList [] ]}))
  /\ exists rq,
       run (H := sample_runtime)
         (host_answering (VDict {[ "destinations" := VList [] ]})) no_options
       = (0, {| stdout := banner (parse_args no_options) ++ [no_results];
                stderr := []; sent := [rq] |}).
Proof.
  assert (Hk : has_key (host_answering (VDict {[ "destinations" := VList [] ]})))
    by (exists "secret"; split; [reflexivity|discriminate]).
  assert (Hp : provider_returns
                 (host_answering (VDict {[ "destinations" := VList [] ]}))
                 (VDict {[ "destinations" := VList [] ]})).
  { eexists. split; [intros rq; reflexivity|]. split; [left; reflexivity|reflexivity]. }
  split; [split; assumption|].
  apply (@empty_result_exits_zero sample_runtime _ no_options _ Hk Hp).
  right. reflexivity.
Defined.

(** C4 as the claim states it fails for a negative limit: min(-1, 3) is not
    a number of blocks. *)
Lemma prints_min_of_limit_fails :
  ~ prints_min_of_limit (H := sample_runtime)
      (host_answering (VDict {[ "destinations" := VList [rec_A; rec_B; rec_C] ]}))
      (limit_only (-1)) 3.
Proof. intros (blocks & _ & Hlen). simpl in Hlen. lia. Qed.

(** What the program does print with the limit -1: the slice drops the
    last of the three ranked records. *)
Lemma negative_limit_drops_last :
  exists b1 b2,
    stdout (run (H := sample_runtime)
              (host_answering
                 (VDict {[ "destinations" := VList [rec_A; rec_B; rec_C] ]}))
              (limit_only (-1))).2
    = listing (parse_args (limit_only (-1))) 3 [b1; b2].
Proof. eexists _, _. vm_compute. reflexivity. Qed.

Lemma display_limit_witness :
  (has_key (host_answering
              (VDict {[ "destinations" := VList [rec_A; rec_B; rec_C] ]}))
   /\ provider_returns
        (host_answering
           (VDict {[ "destinations" := VList [rec_A; rec_B; rec_C] ]}))
        (VDict {[ "destinations" := VList [rec_A; rec_B; rec_C] ]})
   /\ 0 <= args.limit (parse_args (limit_only 2)))
  /\ exists rq blocks,
       Z.of_nat (length blocks) = 2
       /\ run (H := sample_runtime)
            (host_answering
               (VDict {[ "destinations" := VList [rec_A; rec_B; rec_C] ]}))
            (limit_only 2)
          = (0, {| stdout := listing (parse_args (limit_only 2)) 3 blocks;
                   stderr := []; sent := [rq] |}).
Proof.
  set (body := {[ "destinations" := VList [rec_A; rec_B; rec_C] ]}
               : gmap string value).
  assert (Hk : has_key (host_answering (VDict body)))
    by (exists "secret"; split; [reflexivity|discriminate]).
  assert (Hp : provider_returns (host_answering (VDict body)) (VDict body)).
  { eexists. split; [intros rq; reflexivity|]. split; [left; reflexivity|reflexivity]. }
  assert (Hl : 0 <= args.limit (parse_args (limit_only 2))) by (simpl; lia).
  split; [repeat split; assumption|].
  destruct (proj1 (@display_limit sample_runtime)
              (host_answering (VDict body)) (limit_only 2) body
              [rec_A; rec_B; rec_C] Hk Hp eq_refl ltac:(discriminate)
              ltac:(repeat constructor) Hl)
    as (rq & ranked & blocks & _ & _ & Hn & Hrun).
  exists rq, blocks. split; [exact Hn|exact Hrun].
Defined.

(** ** Failures of the fetch *)

Section Failures.
Context `{Builtins}.

(** With the credential set the Fetcher sends one request, the same
    whatever the world, and returns what [fetched] makes of the answer. *)
Lemma fetch_with_key h departure_id adults time_period interests currency gl hl
    max_price travel_class stops key :
  environ h !! "SEARCHAPI_API_KEY" = Some key -> key <> "" ->
  exists rq,
    (forall w,
       get_travel_destinations h departure_id adults time_period interests
         currency gl hl max_price travel_class stops w
       = (fetched (network h rq),
          {| stdout := stdout w; stderr := stderr w; sent := sent w ++ [rq] |}))
    /\ url rq = "https://www.searchapi.io/api/v1/search"
    /\ headers rq = {[ "Authorization" := "Bearer " +:+ key ]}
    /\ params rq
       = (match max_price with
          | Some m => <["max_price" := VInt m]>
          | None => fun p => p
          end)
           {[ "engine" := VStr "google_travel_explore";
              "departure_id" := VStr departure_id;
              "adults" := VInt adults;
              "time_period" := VStr time_period;
              "interests" := VStr interests;
              "currency" := VStr currency;
              "gl" := VStr gl;
              "hl" := VStr hl;
              "travel_class" := VStr travel_class;
              "stops" := VStr stops ]}.
Proof.
  intros Hk Hne.
  unfold get_travel_destinations. rewrite Hk.
  destruct key as [|k0 key]; [congruence|].
  eexists ?[rq]. split.
  - intros w.
    unfold mbind, io_bind, requests_get, fetched.
    match goal with
    | |- context [match network h ?x with _ => _ end] =>
        tryif is_evar x then fail else unify ?rq x
    end.
    destruct (network h _) as [msg|r]; [reflexivity|].
    unfold raise_for_status.
    destruct ((400 <=? status_code r) && (status_code r <? 600)); reflexivity.
  - simpl. split; [reflexivity|]. split; [reflexivity|].
    destruct max_price; reflexivity.
Qed.

Lemma run_fetch h c :
  has_key h ->
  exists rq, forall w,
    get_travel_destinations h (args.departure (parse_args c))
      (args.adults (parse_args c)) (args.period (parse_args c))
      (args.interests (parse_args c)) (args.currency (parse_args c))
      "CH" "en-US" (args.max_price (parse_args c))
      (args.travel_class (parse_args c)) (args.stops (parse_args c)) w
    = (fetched (network h rq),
       {| stdout := stdout w; stderr := stderr w; sent := sent w ++ [rq] |}).
Proof.
  intros (key & Hk & Hne).
  destruct (fetch_with_key h (args.departure (parse_args c))
              (args.adults (parse_args c)) (args.period (parse_args c))
              (args.interests (parse_args c)) (args.currency (parse_args c))
              "CH" "en-US" (args.max_price (parse_args c))
              (args.travel_class (parse_args c)) (args.stops (parse_args c))
              key Hk Hne) as (rq & Hrq & _).
  exists rq. exact Hrq.
Qed.

(** X1. When the provider answers with an error status (400 to 599), the
    program prints only the banner to stdout, writes "API error: ..." to
    stderr, followed by the credential hint for 401, by the rate-limit hint
    for 429 and by nothing for any other status, and exits with status 1
    after its single request; the body is never decoded. *)
Theorem http_error_reported h c r :
  has_key h -> (forall rq, network h rq = Answer r) ->
  400 <= status_code r < 600 ->
  exists rq,
    run h c
    = (1, {| stdout := banner (parse_args c);
             stderr := ("❌ API error: " +:+ error_text r)
                       :: status_hint (status_code r);
             sent := [rq] |}).
Proof.
  intros Hk Hnet Hst. destruct (run_fetch h c Hk) as [rq Hrq].
  exists rq. unfold run, main, mbind, io_bind, try_except. simpl.
  rewrite Hrq, Hnet. unfold fetched.
  replace ((400 <=? status_code r) && (status_code r <? 600)) with true
    by (symmetry; apply andb_true_iff; lia).
  simpl. unfold status_hint.
  destruct (status_code r =? 401); [reflexivity|].
  destruct (status_code r =? 429); reflexivity.
Qed.

(** X2. When the request fails in transport, the program prints only the
    banner to stdout, writes "Network error: ..." to stderr and exits with
    status 1; the request is not repeated. *)
Theorem network_error_reported h c msg :
  has_key h -> (forall rq, network h rq = Unreachable msg) ->
  exists rq,
    run h c
    = (1, {| stdout := banner (parse_args c);
             stderr := ["❌ Network error: " +:+ msg];
             sent := [rq] |}).
Proof.
  intros Hk Hnet. destruct (run_fetch h c Hk) as [rq Hrq].
  exists rq. unfold run, main, mbind, io_bind, try_except. simpl.
  rewrite Hrq, Hnet. reflexivity.
Qed.

(** X3. The [except ValueError] clause guards the whole [try]: when the
    status is no error and decoding the body raises a [ValueError], the
    program reports it as "Configuration error: ..." on stderr and exits
    with status 1, although the credential is set. *)
Theorem body_value_error_reported_as_configuration h c r msg :
  has_key h -> (forall rq, network h rq = Answer r) ->
  status_code r < 400 \/ 600 <= status_code r ->
  json r = Raise (ValueError msg) ->
  exists rq,
    run h c
    = (1, {| stdout := banner (parse_args c);
             stderr := ["❌ Configuration error: " +:+ msg];
             sent := [rq] |}).
Proof.
  intros Hk Hnet Hst Hj. destruct (run_fetch h c Hk) as [rq Hrq].
  exists rq. unfold run, main, mbind, io_bind, try_except. simpl.
  rewrite Hrq, Hnet. unfold fetched.
  replace ((400 <=? status_code r) && (status_code r <? 600)) with false
    by (symmetry; apply andb_false_iff; lia).
  rewrite Hj. reflexivity.
Qed.

End Failures.

(** ** Requests sent *)

Section Requests.
Context `{Builtins}.

Lemma quiet_ret {A} (a : A) : quiet (mret a).
Proof. intros w. reflexivity. Qed.

Lemma quiet_raise {A} e : quiet (@raise A e).
Proof. intros w. reflexivity. Qed.

Lemma quiet_lift {A} (r : result A) : quiet (lift r).
Proof. intros w. reflexivity. Qed.

Lemma quiet_print s : quiet (print s).
Proof. intros w. reflexivity. Qed.

Lemma quiet_eprint s : quiet (eprint s).
Proof. intros w. reflexivity. Qed.

Lemma quiet_bind {A B} (m : io A) (f : A -> io B) :
  quiet m -> (forall a, quiet (f a)) -> quiet (m ≫= f).
Proof.
  intros Hm Hf w. unfold mbind, io_bind. specialize (Hm w).
  destruct (m w) as [[a|e] w']; simpl in *; [|exact Hm].
  rewrite Hf. exact Hm.
Qed.

Lemma quiet_handler e k : handler e = Some k -> quiet k.
Proof.
  destruct e; simpl; intros [= <-];
    repeat first [apply quiet_bind; [|intros _] | apply quiet_eprint
                 | apply quiet_raise | apply quiet_ret].
  - destruct (status =? 401); [apply quiet_eprint|].
    destruct (status =? 429); [apply quiet_eprint|apply quiet_ret].
Qed.

Lemma quiet_print_ranked a l : forall rank, quiet (print_ranked a rank l).
Proof.
  induction l as [|d l IH]; intros rank; simpl; [apply quiet_ret|].
  apply quiet_bind; [apply quiet_lift|]. intros block.
  apply quiet_bind; [apply quiet_print|]. intros _. apply IH.
Qed.

(** After the response has arrived [main] sends nothing more. *)
Lemma quiet_after_fetch a response :
  quiet
    (destinations ← lift (py_get response "destinations" (VList []));
     if negb (truthy destinations) then
       print "No destinations found. Try different search parameters.";;
       sys_exit 0
     else
       sorted_destinations ← lift (sort_by_cheapest destinations);
       let display_destinations :=
         slice_to sorted_destinations (args.limit a) in
       found ← lift (py_len destinations);
       print ("📋 Found " +:+ pretty found +:+ " destinations. Showing top "
              +:+ pretty (Z.of_nat (length display_destinations))
              +:+ " by cheapest price:" +:+ nl);;
       print (str_mul "=" 60);;
       print_ranked a 1 display_destinations;;
       print (str_mul "=" 60);;
       print (nl +:+ "💡 Tip: Use --help to see all available options")).
Proof.
  apply quiet_bind; [apply quiet_lift|]. intros destinations.
  destruct (negb (truthy destinations)).
  - apply quiet_bind; [apply quiet_print|]. intros _. apply quiet_raise.
  - apply quiet_bind; [apply quiet_lift|]. intros sorted_destinations.
    apply quiet_bind; [apply quiet_lift|]. intros found.
    repeat (apply quiet_bind; [first [apply quiet_print|apply quiet_print_ranked]|];
            intros _).
    apply quiet_print.
Qed.

Lemma sends_bind {A B} rq (m : io A) (f : A -> io B) :
  (forall w, sent (m w).2 = sent w ++ [rq]) -> (forall a, quiet (f a)) ->
  forall w, sent ((m ≫= f) w).2 = sent w ++ [rq].
Proof.
  intros Hm Hf w. unfold mbind, io_bind. specialize (Hm w).
  destruct (m w) as [[a|e] w']; simpl in *; [|exact Hm].
  rewrite Hf. exact Hm.
Qed.

Lemma sends_try rq (body : io ()) :
  (forall w, sent (body w).2 = sent w ++ [rq]) ->
  forall w, sent (try_except body handler w).2 = sent w ++ [rq].
Proof.
  intros Hb w. unfold try_except. specialize (Hb w).
  destruct (body w) as [[u|e] w']; simpl in *; [exact Hb|].
  destruct (handler e) as [k|] eqn:He; simpl; [|exact Hb].
  rewrite (quiet_handler e k He). exact Hb.
Qed.

Lemma run_sends h c rq :
  (forall w,
     get_travel_destinations h (args.departure (parse_args c))
       (args.adults (parse_args c)) (args.period (parse_args c))
       (args.interests (parse_args c)) (args.currency (parse_args c))
       "CH" "en-US" (args.max_price (parse_args c))
       (args.travel_class (parse_args c)) (args.stops (parse_args c)) w
     = (fetched (network h rq),
        {| stdout := stdout w; stderr := stderr w; sent := sent w ++ [rq] |})) ->
  sent (run h c).2 = [rq].
Proof.
  intros Hrq.
  unfold run. destruct (main h (parse_args c) start) as [r w] eqn:Hm.
  simpl. replace w with (main h (parse_args c) start).2 by (rewrite Hm; reflexivity).
  clear Hm r w.
  unfold main.
  unfold mbind at 1 2 3 4, io_bind at 1 2 3 4. simpl.
  match goal with |- sent (try_except ?b handler ?w0).2 = _ =>
    change [rq] with (sent w0 ++ [rq]); apply sends_try end.
  apply sends_bind; [|apply quiet_after_fetch].
  intros w. rewrite Hrq. reflexivity.
Qed.

(** X4. The program never retries and never asks twice: with the
    credential set, a run sends exactly one request, whatever the network
    answers and whatever the body holds. *)
Theorem one_request_per_run h c :
  has_key h -> exists rq, sent (run h c).2 = [rq].
Proof.
  intros Hk. destruct (run_fetch h c Hk) as [rq Hrq]. exists rq.
  apply run_sends, Hrq.
Qed.

(** X16. The request of a run is made of the command line and nothing
    else: it goes to the search endpoint with the credential as bearer
    token in the [Authorization] header, and its parameters are the engine,
    the options given or their defaults, the fixed locale [gl=CH] and
    [hl=en-US], and [max_price] when given; the display limit is not
    sent. *)
Theorem run_request h c key :
  environ h !! "SEARCHAPI_API_KEY" = Some key -> key <> "" ->
  exists rq,
    sent (run h c).2 = [rq]
    /\ url rq = "https://www.searchapi.io/api/v1/search"
    /\ headers rq = {[ "Authorization" := "Bearer " +:+ key ]}
    /\ params rq
       = (match cli.max_price c with
          | Some m => <["max_price" := VInt m]>
          | None => fun p => p
          end)
           {[ "engine" := VStr "google_travel_explore";
              "departure_id" := VStr (default "ZRH" (cli.departure c));
              "adults" := VInt (default 1 (cli.adults c));
              "time_period" :=
                VStr (default "one_week_trip_in_the_next_six_months"
                        (cli.period c));
              "interests" := VStr (default "popular" (cli.interests c));
              "currency" := VStr (default "CHF" (cli.currency c));
              "gl" := VStr "CH";
              "hl" := VStr "en-US";
              "travel_class" := VStr (default "economy" (cli.travel_class c));
              "stops" := VStr (default "any" (cli.stops c)) ]}
    /\ params rq !! "limit" = None.
Proof.
  intros Hk Hne.
  destruct (fetch_with_key h (args.departure (parse_args c))
              (args.adults (parse_args c)) (args.period (parse_args c))
              (args.interests (parse_args c)) (args.currency (parse_args c))
              "CH" "en-US" (args.max_price (parse_args c))
              (args.travel_class (parse_args c)) (args.stops (parse_args c))
              key Hk Hne) as (rq & Hrq & Hu & Hh & Hp).
  exists rq. split; [apply run_sends, Hrq|].
  split; [exact Hu|]. split; [exact Hh|]. split; [exact Hp|].
  rewrite Hp. simpl. destruct (cli.max_price c); reflexivity.
Qed.

End Requests.

(** ** Records that are none *)

Section Malformed.
Context `{Builtins}.

Lemma get_price_record d : is_record d = true -> exists k, get_price d = Ok k.
Proof.
  destruct d as [| | | | | |m]; try discriminate. unfold is_record, get_price.
  simpl. destruct (m !! "flight") as [[| | | | | |fm]|]; try discriminate;
    intros _; simpl.
  - destruct (default VNone (fm !! "price")); eexists; reflexivity.
  - rewrite lookup_empty. eexists; reflexivity.
Qed.

Lemma get_price_no_record d :
  is_record d = false -> get_price d = Raise AttributeError.
Proof.
  destruct d as [| | | | | |m]; try reflexivity. unfold is_record, get_price.
  simpl. destruct (m !! "flight") as [[]|]; try discriminate; reflexivity.
Qed.

Lemma get_price_Ok_record d k : get_price d = Ok k -> is_record d = true.
Proof.
  intros Hk. destruct (is_record d) eqn:Hr; [reflexivity|].
  rewrite (get_price_no_record d Hr) in Hk. discriminate.
Qed.

Lemma mapM_get_price_no_record l :
  Exists (fun d => is_record d = false) l ->
  mapM get_price l = Raise AttributeError.
Proof.
  induction l as [|d l IH]; intros Hex; [inversion Hex|]. simpl.
  destruct (is_record d) eqn:Hr.
  - destruct (get_price_record d Hr) as [k ->]. simpl.
    rewrite IH; [reflexivity|].
    apply Exists_cons in Hex as [Hd|Hl]; [congruence|exact Hl].
  - rewrite (get_price_no_record d Hr). reflexivity.
Qed.

(** X5. One element that is no record (not an object, or an object whose
    flight is present and not an object, as a null flight) makes the whole
    ranking fail with an [AttributeError], wherever it stands in the list
    and whatever the other records are. *)
Theorem sort_by_cheapest_no_record l :
  Exists (fun d => is_record d = false) l ->
  sort_by_cheapest (VList l) = Raise AttributeError.
Proof.
  intros Hex. unfold sort_by_cheapest, sorted. simpl.
  rewrite (mapM_get_price_no_record l Hex). reflexivity.
Qed.

(** X6. On a value that is no record (not an object, or an object whose
    flight is present and not an object, as a null flight)
    [format_destination] raises an [AttributeError] and returns no text,
    whatever the other members are. *)
Theorem format_destination_no_record dest rank currency departure_id adults :
  is_record dest = false ->
  format_destination dest rank currency departure_id adults
  = Raise AttributeError.
Proof.
  destruct dest as [| | | | | |d]; try reflexivity.
  unfold is_record, format_destination, bindings. simpl.
  destruct (d !! "flight") as [[]|]; try discriminate; reflexivity.
Qed.

End Malformed.

(** ** Whole runs *)

Section Runs.
Context `{Builtins}.

Lemma sort_by_cheapest_Ok_records ds ranked :
  sort_by_cheapest (VList ds) = Ok ranked ->
  Forall (fun d => is_record d = true) ranked.
Proof.
  intros Hs. rewrite (sort_by_cheapest_perm ds ranked Hs).
  unfold sort_by_cheapest, sorted in Hs. simpl in Hs.
  destruct (mapM get_price ds) as [ks|] eqn:Hks; simpl in Hs; [|discriminate].
  apply mapM_Ok in Hks. clear Hs.
  induction Hks as [|d k l ks' Hd _ IH]; constructor; [|exact IH].
  exact (get_price_Ok_record d k Hd).
Qed.

Lemma Forall_slice_to {A} (P : A -> Prop) l stop :
  Forall P l -> Forall P (slice_to l stop).
Proof. intros Hl. unfold slice_to. destruct (stop <? 0); apply Forall_take, Hl. Qed.

Lemma length_slice_to {A} (l : list A) stop :
  Z.of_nat (length (slice_to l stop))
  = if stop <? 0 then Z.max 0 (Z.of_nat (length l) + stop)
    else Z.min stop (Z.of_nat (length l)).
Proof.
  unfold slice_to. destruct (stop <? 0) eqn:Hs; rewrite length_take; lia.
Qed.

Lemma run_listing h c body ds ranked :
  has_key h -> provider_returns h (VDict body) ->
  body !! "destinations" = Some (VList ds) -> ds <> [] ->
  sort_by_cheapest (VList ds) = Ok ranked ->
  exists rq blocks,
    ranked_blocks (parse_args c) 1
      (slice_to ranked (args.limit (parse_args c))) blocks
    /\ run h c = (0, {| stdout := listing (parse_args c) (length ds) blocks;
                        stderr := []; sent := [rq] |}).
Proof.
  intros Hk Hp Hd Hne Hs. unfold run.
  destruct (fetch_ok h (args.departure (parse_args c))
              (args.adults (parse_args c)) (args.period (parse_args c))
              (args.interests (parse_args c)) (args.currency (parse_args c))
              "CH" "en-US" (args.max_price (parse_args c))
              (args.travel_class (parse_args c)) (args.stops (parse_args c))
              (VDict body) Hk Hp) as [rq Hrq].
  remember (parse_args c) as a eqn:Ha. clear Ha.
  pose proof (Forall_slice_to _ _ (args.limit a)
                (sort_by_cheapest_Ok_records ds ranked Hs)) as Hrec.
  destruct (print_ranked_records a _ Hrec 1) as (blocks & Hb & Hprint).
  exists rq, blocks. split; [exact Hb|].
  unfold main, mbind, io_bind, try_except. simpl.
  rewrite Hrq. simpl. rewrite Hd. simpl.
  destruct ds as [|d0 ds']; [congruence|]. simpl.
  unfold lift. rewrite Hs. simpl.
  rewrite Hprint. simpl. unfold listing, banner. simpl.
  rewrite (ranked_blocks_length _ _ _ _ Hb).
  rewrite <- !app_assoc. reflexivity.
Qed.

(** X8. A negative display limit is not refused: with the limit [L < 0]
    and [n] destinations the program prints the cheapest [n + L] records,
    dropping the last [-L] of the ranking, and none at all when
    [n + L <= 0]; the summary line still counts all [n]. *)
Theorem negative_limit_counts_from_end h c body ds ranked :
  has_key h -> provider_returns h (VDict body) ->
  body !! "destinations" = Some (VList ds) -> ds <> [] ->
  sort_by_cheapest (VList ds) = Ok ranked ->
  args.limit (parse_args c) < 0 ->
  exists rq blocks,
    ranked_blocks (parse_args c) 1
      (take (length ds - Z.to_nat (- args.limit (parse_args c))) ranked) blocks
    /\ Z.of_nat (length blocks)
       = Z.max 0 (Z.of_nat (length ds) + args.limit (parse_args c))
    /\ run h c = (0, {| stdout := listing (parse_args c) (length ds) blocks;
                        stderr := []; sent := [rq] |}).
Proof.
  intros Hk Hp Hd Hne Hs Hneg.
  destruct (run_listing h c body ds ranked Hk Hp Hd Hne Hs)
    as (rq & blocks & Hb & Hrun).
  pose proof (sort_by_cheapest_perm ds ranked Hs) as Hperm.
  assert (Hlen : length ranked = length ds) by (rewrite Hperm; reflexivity).
  exists rq, blocks. split; [|split; [|exact Hrun]].
  - unfold slice_to in Hb.
    replace (args.limit (parse_args c) <? 0) with true in Hb by (symmetry; lia).
    replace (length ds - Z.to_nat (- args.limit (parse_args c)))%nat
      with (Z.to_nat (0 `max` (Z.of_nat (length ranked)
                               + args.limit (parse_args c)))) by lia.
    exact Hb.
  - rewrite (ranked_blocks_length _ _ _ _ Hb), length_slice_to, Hlen.
    replace (args.limit (parse_args c) <? 0) with true by (symmetry; lia).
    reflexivity.
Qed.

Lemma bind_Ok {A B} (m : io A) (f : A -> io B) w a w' :
  m w = (Ok a, w') -> (m ≫= f) w = f a w'.
Proof. intros Hm. unfold mbind, io_bind. rewrite Hm. reflexivity. Qed.

Lemma bind_Raise {A B} (m : io A) (f : A -> io B) w e w' :
  m w = (Raise e, w') -> (m ≫= f) w = (Raise e, w').
Proof. intros Hm. unfold mbind, io_bind. rewrite Hm. reflexivity. Qed.

Lemma try_uncaught {A} (body : io A) hd w e w' :
  body w = (Raise e, w') -> hd e = None ->
  try_except body hd w = (Raise e, w').
Proof. intros Hb Hh. unfold try_except. rewrite Hb, Hh. reflexivity. Qed.

Lemma main_crash h c body e :
  has_key h -> provider_returns h body ->
  (destinations ← py_get body "destinations" (VList []);
   if negb (truthy destinations) then Ok []
   else sort_by_cheapest destinations) = Raise e ->
  handler e = None ->
  exists rq,
    main h (parse_args c) start
    = (Raise e, {| stdout := banner (parse_args c); stderr := [];
                   sent := [rq] |}).
Proof.
  intros Hk Hp He Hh.
  destruct (fetch_ok h (args.departure (parse_args c))
              (args.adults (parse_args c)) (args.period (parse_args c))
              (args.interests (parse_args c)) (args.currency (parse_args c))
              "CH" "en-US" (args.max_price (parse_args c))
              (args.travel_class (parse_args c)) (args.stops (parse_args c))
              body Hk Hp) as [rq Hrq].
  exists rq.
  remember (parse_args c) as a eqn:Ha. clear Ha.
  unfold main. unfold mbind at 1 2 3 4, io_bind at 1 2 3 4. simpl.
  apply try_uncaught; [|exact Hh].
  erewrite bind_Ok by apply Hrq. simpl.
  unfold mbind, result_bind in He.
  destruct (py_get body "destinations" (VList [])) as [destinations|e'].
  - erewrite bind_Ok by reflexivity.
    destruct (negb (truthy destinations)); [discriminate|].
    apply bind_Raise. unfold lift. rewrite He. reflexivity.
  - injection He as ->. apply bind_Raise. reflexivity.
Qed.

Lemma run_crash h c body e :
  has_key h -> provider_returns h body ->
  (destinations ← py_get body "destinations" (VList []);
   if negb (truthy destinations) then Ok []
   else sort_by_cheapest destinations) = Raise e ->
  handler e = None ->
  (run h c).1 = exit_status (Raise e)
  /\ stdout (run h c).2 = banner (parse_args c).
Proof.
  intros Hk Hp He Hh. unfold run.
  destruct (main_crash h c body e Hk Hp He Hh) as [rq Hmain].
  rewrite Hmain. split; reflexivity.
Qed.

(** X17. Any falsy destinations member counts as no results, not only
    the absent and the empty list: with [null], [false], [0], an empty
    text or an empty object the program prints the no-results notice after
    the banner and exits with status 0. *)
Theorem falsy_destinations_mean_no_results h c body d :
  has_key h -> provider_returns h (VDict body) ->
  body !! "destinations" = Some d -> truthy d = false ->
  exists rq,
    run h c = (0, {| stdout := banner (parse_args c) ++ [no_results];
                     stderr := []; sent := [rq] |}).
Proof.
  intros Hk Hp Hd Ht. apply (no_destinations_exit h c body Hk Hp).
  rewrite Hd. exact Ht.
Qed.

(** X9. A body that decodes to something other than an object (a list, a
    text, null) has no [get]: [main] ends in an [AttributeError] that none
    of its [except] clauses catches, having printed the banner and nothing
    else and written no diagnostic of its own, and the process exits with
    status 1. *)
Theorem body_no_object_stops_run h c body :
  has_key h -> provider_returns h body ->
  (forall d, body <> VDict d) ->
  exists rq,
    main h (parse_args c) start
    = (Raise AttributeError,
       {| stdout := banner (parse_args c); stderr := []; sent := [rq] |})
    /\ handler AttributeError = None
    /\ run h c
       = (1, {| stdout := banner (parse_args c); stderr := [];
                sent := [rq] |}).
Proof.
  intros Hk Hp Hno.
  destruct (main_crash h c body AttributeError Hk Hp) as [rq Hmain];
    [|reflexivity|].
  - destruct body; try reflexivity. destruct (Hno d eq_refl).
  - exists rq. split; [exact Hmain|]. split; [reflexivity|].
    unfold run. rewrite Hmain. reflexivity.
Qed.

(** X10. One destination that is no record (a null flight is enough)
    costs the whole listing: the program stops after the banner with exit
    status 1, and the records that could be shown are not. *)
Theorem no_record_stops_run h c body ds :
  has_key h -> provider_returns h (VDict body) ->
  body !! "destinations" = Some (VList ds) ->
  Exists (fun d => is_record d = false) ds ->
  (run h c).1 = 1 /\ stdout (run h c).2 = banner (parse_args c).
Proof.
  intros Hk Hp Hd Hex.
  apply (run_crash h c (VDict body) AttributeError Hk Hp); [|reflexivity].
  simpl. rewrite Hd. simpl.
  destruct ds as [|d0 ds']; [inversion Hex|]. simpl.
  exact (sort_by_cheapest_no_record (d0 :: ds') Hex).
Qed.

End Runs.

(** ** Quoting *)

Section Quoting.
Context `{Builtins}.

Lemma length_append (s t : string) :
  String.length (s +:+ t) = (String.length s + String.length t)%nat.
Proof.
  induction s as [|c s IH]; [reflexivity|].
  change (S (String.length (s +:+ t)) = S (String.length s + String.length t)).
  rewrite IH. reflexivity.
Qed.

Lemma append_cancel_r (s t u : string) : s +:+ u = t +:+ u -> s = t.
Proof.
  intros Heq.
  assert (Hlen : String.length s = String.length t).
  { apply (f_equal String.length) in Heq. rewrite !length_append in Heq. lia. }
  revert t Heq Hlen. induction s as [|c s IH]; intros [|d t] Heq Hlen;
    try discriminate; [reflexivity|].
  change (String c (s +:+ u) = String d (t +:+ u)) in Heq.
  injection Heq as -> Heq. injection Hlen as Hlen.
  rewrite (IH t Heq Hlen). reflexivity.
Qed.

Lemma quote_app s t : quote (s +:+ t) = quote s +:+ quote t.
Proof.
  induction s as [|c s IH]; [reflexivity|].
  change (quote_byte c +:+ quote (s +:+ t)
          = (quote_byte c +:+ quote s) +:+ quote t).
  rewrite IH, append_assoc. reflexivity.
Qed.

Lemma quote_plain s : plain s = true -> quote s = s.
Proof.
  unfold plain. induction s as [|c s IH]; [reflexivity|].
  simpl. intros [Hc Hs]%andb_true_iff.
  unfold quote_byte. rewrite Hc, (IH Hs). reflexivity.
Qed.

Lemma hex_digit_code n :
  (n < 16)%N ->
  N_of_ascii (hex_digit n) = (if (n <? 10)%N then 48 + n else 55 + n)%N.
Proof.
  intros Hn. unfold hex_digit. apply N_ascii_embedding.
  destruct (n <? 10)%N; lia.
Qed.

Lemma hex_digit_inj m n :
  (m < 16)%N -> (n < 16)%N -> hex_digit m = hex_digit n -> m = n.
Proof.
  intros Hm Hn Heq. apply (f_equal N_of_ascii) in Heq.
  rewrite !hex_digit_code in Heq by assumption.
  destruct (N.ltb_spec m 10), (N.ltb_spec n 10); lia.
Qed.

Lemma quote_byte_inj c d s t :
  quote_byte c +:+ s = quote_byte d +:+ t -> c = d /\ s = t.
Proof.
  assert (Hpct : never_quoted "%" = false) by reflexivity.
  assert (Hc : (N_of_ascii c < 256)%N) by apply N_ascii_bounded.
  assert (Hd : (N_of_ascii d < 256)%N) by apply N_ascii_bounded.
  unfold quote_byte.
  destruct (never_quoted c) eqn:Ec, (never_quoted d) eqn:Ed;
    cbv [String.append]; intros Heq; injection Heq.
  - intros -> ->. split; reflexivity.
  - intros _ ->. congruence.
  - intros _ <-. congruence.
  - intros -> H2 H1. split; [|reflexivity].
    apply hex_digit_inj in H1;
      [|apply N.Div0.div_lt_upper_bound; lia..].
    apply hex_digit_inj in H2; [|apply N.mod_lt; lia..].
    rewrite <- (ascii_N_embedding c), <- (ascii_N_embedding d). f_equal.
    rewrite (N.div_mod (N_of_ascii c) 16), (N.div_mod (N_of_ascii d) 16) by lia.
    rewrite H1, H2. reflexivity.
Qed.

Lemma quote_byte_cons c : exists x s, quote_byte c = String x s.
Proof. unfold quote_byte. destruct (never_quoted c); eauto. Qed.

Lemma quote_inj s t : quote s = quote t -> s = t.
Proof.
  revert t. induction s as [|c s IH]; intros [|d t]; simpl.
  - reflexivity.
  - destruct (quote_byte_cons d) as (x & r & ->). discriminate.
  - destruct (quote_byte_cons c) as (x & r & ->). discriminate.
  - intros [-> Hq]%quote_byte_inj. rewrite (IH t Hq). reflexivity.
Qed.

(** X11. The quoting of the link loses nothing: two links for the same
    currency and number of adults are equal only when their queries,
    "flights from .. to .. on .. returning ..", are the same text. *)
Theorem build_flight_link_inj departure_id dest_airport outbound_date
    return_date departure_id' dest_airport' outbound_date' return_date'
    adults currency :
  build_flight_link departure_id dest_airport outbound_date return_date
    adults currency
  = build_flight_link departure_id' dest_airport' outbound_date' return_date'
      adults currency ->
  "flights from " +:+ departure_id +:+ " to " +:+ py_str dest_airport
  +:+ " on " +:+ py_str outbound_date +:+ " returning " +:+ py_str return_date
  = "flights from " +:+ departure_id' +:+ " to " +:+ py_str dest_airport'
    +:+ " on " +:+ py_str outbound_date' +:+ " returning "
    +:+ py_str return_date'.
Proof.
  unfold build_flight_link. intros Heq.
  apply (inj (String.app _)) in Heq. apply (inj (String.app _)) in Heq.
  apply append_cancel_r in Heq. apply quote_inj, Heq.
Qed.

(** X12. Plain texts pass through the quoting unchanged and only the
    spaces of the query are rewritten: for a departure code, an airport
    code and two dates made of letters, digits and [_.-~/], the link is the
    base URL, [?q=flights%20from%20<departure>%20to%20<airport>%20on%20
    <outbound>%20returning%20<return>], [&curr=<currency>] and
    [&px=<adults>]. *)
Theorem build_flight_link_plain departure_id airport outbound_date return_date
    adults currency :
  plain departure_id = true -> plain airport = true ->
  plain outbound_date = true -> plain return_date = true ->
  build_flight_link departure_id (VStr airport) (VStr outbound_date)
    (VStr return_date) adults currency
  = "https://www.google.com/travel/flights?q=flights%20from%20"
    +:+ departure_id +:+ "%20to%20" +:+ airport +:+ "%20on%20"
    +:+ outbound_date +:+ "%20returning%20" +:+ return_date
    +:+ "&curr=" +:+ currency +:+ "&px=" +:+ pretty adults.
Proof.
  intros Hd Ha Ho Hr. unfold build_flight_link, py_str.
  rewrite !quote_app, (quote_plain _ Hd), (quote_plain _ Ha),
    (quote_plain _ Ho), (quote_plain _ Hr).
  replace (quote "flights from ") with "flights%20from%20" by reflexivity.
  replace (quote " to ") with "%20to%20" by reflexivity.
  replace (quote " on ") with "%20on%20" by reflexivity.
  replace (quote " returning ") with "%20returning%20" by reflexivity.
  rewrite !append_assoc. reflexivity.
Qed.

Lemma quote_no_separator s c :
  c ∈ String.list_ascii_of_string (quote s) ->
  c ∉ [" "; "&"; "="; "?"; "#"; "+"]%char.
Proof.
  intros Hin Hsep.
  pose proof (quote_url_char s) as Hall. rewrite Forall_forall in Hall.
  specialize (Hall c Hin).
  repeat (apply elem_of_cons in Hsep as [->|Hsep];
          [destruct Hall as [Hq|Hp]; discriminate|]).
  inversion Hsep.
Qed.

(** X13. No value of a record, and no departure code, can add a parameter
    to the link or cut its query short: between [?q=] and [&curr=] the link
    holds no space and none of [&], [=], [?], [#] and [+]. *)
Theorem build_flight_link_query_closed departure_id dest_airport outbound_date
    return_date adults currency :
  exists q,
    build_flight_link departure_id dest_airport outbound_date return_date
      adults currency
    = "https://www.google.com/travel/flights?q=" +:+ q +:+ "&curr="
      +:+ currency +:+ "&px=" +:+ pretty adults
    /\ forall c, c ∈ String.list_ascii_of_string q ->
                 c ∉ [" "; "&"; "="; "?"; "#"; "+"]%char.
Proof.
  eexists. split.
  - unfold build_flight_link. rewrite append_assoc. reflexivity.
  - intros c. apply quote_no_separator.
Qed.

End Quoting.

(** ** Ranking a ranked list *)

Section Ranked.
Context `{Builtins}.

Lemma price_le_not_ltb a b : price_le a b -> price_ltb b a = false.
Proof. destruct a, b; simpl; try tauto; intros; lia. Qed.

Lemma insert_by_key_least x l :
  number x.1 -> keyed l -> Forall (key_le x) l ->
  insert_by_key x l = Ok (x :: l).
Proof.
  intros Hx Hl Hle. destruct l as [|y l]; [reflexivity|]. simpl.
  apply Forall_cons in Hl as [Hy _]. apply Forall_cons in Hle as [Hxy _].
  rewrite py_lt_number by assumption. simpl.
  rewrite (price_le_not_ltb _ _ Hxy). reflexivity.
Qed.

Lemma sort_by_key_sorted l :
  keyed l -> StronglySorted key_le l -> sort_by_key l = Ok l.
Proof.
  intros Hk Hs. induction Hs as [|x l Hs IH Hx]; [reflexivity|]. simpl.
  apply Forall_cons in Hk as [Hkx Hk].
  rewrite (IH Hk). simpl. apply insert_by_key_least; assumption.
Qed.

Lemma own_key_sorted_inv s :
  Forall own_key s -> StronglySorted price_le (flight_price <$> s.*2) ->
  StronglySorted key_le s.
Proof.
  induction s as [|p s IH]; intros Ho Hs; [constructor|].
  apply Forall_cons in Ho as [Hp Ho]. rewrite !fmap_cons in Hs.
  apply StronglySorted_inv in Hs as [Hs Hall].
  constructor; [apply IH; assumption|].
  rewrite !Forall_fmap in Hall. rewrite Forall_forall in Hall, Ho.
  apply Forall_forall. intros q Hq. unfold key_le.
  rewrite <- (own_key_price p Hp), <- (own_key_price q (Ho q Hq)).
  apply (Hall q Hq).
Qed.

Lemma sort_by_cheapest_sorted l :
  Forall (fun d => is_destination d = true) l ->
  StronglySorted price_le (flight_price <$> l) ->
  sort_by_cheapest (VList l) = Ok l.
Proof.
  intros Hl Hs. unfold sort_by_cheapest, sorted. simpl.
  destruct (mapM_get_price l Hl) as [ks Hks]. rewrite Hks. simpl.
  apply mapM_Ok in Hks.
  pose proof (zip_own_key l ks Hks) as Hown.
  pose proof (zip_keys_records l ks Hks) as Hrec.
  assert (Hkeyed : keyed (zip ks l)).
  { clear -Hks Hl. induction Hks as [|d k l ks Hd _ IH]; simpl; [constructor|].
    apply Forall_cons in Hl as [Hdd Hl]. constructor; [simpl|exact (IH Hl)].
    destruct (get_price_destination d Hdd) as (k' & Hk' & Hn). congruence. }
  rewrite sort_by_key_sorted; [simpl; rewrite Hrec; reflexivity|exact Hkeyed|].
  apply own_key_sorted_inv; [exact Hown|]. rewrite Hrec. exact Hs.
Qed.

(** X14. Ranking is idempotent: on a list of destination records the
    Ranker returns a list that it leaves as it is when given it again, so
    a list in ascending order of price is never reordered. *)
Theorem sort_by_cheapest_idempotent l :
  Forall (fun d => is_destination d = true) l ->
  exists out,
    sort_by_cheapest (VList l) = Ok out
    /\ sort_by_cheapest (VList out) = Ok out.
Proof.
  intros Hl. destruct (sort_by_cheapest_spec l Hl) as (out & Ho & Hp & Hs & _).
  exists out. split; [exact Ho|].
  apply sort_by_cheapest_sorted; [rewrite Hp; exact Hl|exact Hs].
Qed.

End Ranked.

(** ** The stop count *)

Section Stops.
Context `{Builtins}.

(** X15. Stop counts that are no integers: [false] is shown as "direct",
    as 0 is; a count that is missing, null, [true] or a text, the text
    ["0"] too, is shown in the flight line of the returned block as "N/A",
    "None", "True" or the text itself, followed by " stop(s)". *)
Theorem stop_count_other_kinds dest rank currency departure_id adults :
  is_record dest = true ->
  exists v shown,
    bindings dest currency departure_id adults = Ok v
    /\ format_destination dest rank currency departure_id adults
       = Ok (block (heading_line rank (py_str (name v)) (py_str (country v)))
               (flight_line (py_str (price v)) currency (py_str (airline v))
                  shown (py_str (duration v)))
               (dates_line (py_str (outbound v)) (py_str (return_date v)))
               (accommodation_line (cost_str v))
               (book_line (flight_link v)))
    /\ (flight_member dest "stops" = Some (VBool false) -> shown = "direct")
    /\ (flight_member dest "stops" = None -> shown = "N/A stop(s)")
    /\ (flight_member dest "stops" = Some VNone -> shown = "None stop(s)")
    /\ (flight_member dest "stops" = Some (VBool true) ->
        shown = "True stop(s)")
    /\ (forall t, flight_member dest "stops" = Some (VStr t) ->
        shown = t +:+ " stop(s)").
Proof.
  intros Hr.
  destruct (bindings_fields dest currency departure_id adults Hr)
    as (v & Hb & _ & _ & _ & _ & Hst & _ & _ & _ & _ & _ & Htxt & _).
  exists v, (stop_text v). split; [exact Hb|].
  split; [apply format_destination_block, Hb|].
  rewrite Htxt, Hst.
  repeat (split; [intros ->; reflexivity|]).
  intros t ->. reflexivity.
Qed.

End Stops.

(** ** Closed instances *)

Lemma secret_key body : has_key (host_answering body).
Proof. exists "secret". split; [reflexivity|discriminate]. Defined.

Lemma answering_returns body : provider_returns (host_answering body) body.
Proof.
  eexists. split; [intros rq; reflexivity|].
  split; [left; reflexivity|reflexivity].
Defined.

Lemma http_error_reported_witness :
  (has_key (host_failing 429 "429 Client Error")
   /\ 400 <= 429 < 600)
  /\ exists rq,
       run (H := sample_runtime) (host_failing 429 "429 Client Error") no_options
       = (1, {| stdout := banner (parse_args no_options);
                stderr := ["❌ API error: 429 Client Error";
                           "   Rate limit exceeded. Please wait and try again."];
                sent := [rq] |}).
Proof.
  assert (Hk : has_key (host_failing 429 "429 Client Error"))
    by (exists "secret"; split; [reflexivity|discriminate]).
  split; [split; [exact Hk|lia]|].
  exact (@http_error_reported sample_runtime _ no_options _ Hk
           (fun _ => eq_refl) ltac:(simpl; lia)).
Defined.

Lemma network_error_reported_witness :
  has_key host_unreachable
  /\ exists rq,
       run (H := sample_runtime) host_unreachable no_options
       = (1, {| stdout := banner (parse_args no_options);
                stderr := ["❌ Network error: connection timed out"];
                sent := [rq] |}).
Proof.
  assert (Hk : has_key host_unreachable)
    by (exists "secret"; split; [reflexivity|discriminate]).
  split; [exact Hk|].
  exact (@network_error_reported sample_runtime _ no_options _ Hk
           (fun _ => eq_refl)).
Defined.

Lemma body_value_error_reported_as_configuration_witness :
  has_key host_garbled
  /\ exists rq,
       run (H := sample_runtime) host_garbled no_options
       = (1, {| stdout := banner (parse_args no_options);
                stderr := ["❌ Configuration error: Expecting value: line 1 column 1 (char 0)"];
                sent := [rq] |}).
Proof.
  assert (Hk : has_key host_garbled)
    by (exists "secret"; split; [reflexivity|discriminate]).
  split; [exact Hk|].
  exact (@body_value_error_reported_as_configuration sample_runtime _
           no_options _ _ Hk (fun _ => eq_refl)
           ltac:(left; reflexivity) eq_refl).
Defined.

Lemma one_request_per_run_witness :
  has_key host_unreachable
  /\ exists rq, sent (run (H := sample_runtime) host_unreachable no_options).2 = [rq].
Proof.
  assert (Hk : has_key host_unreachable)
    by (exists "secret"; split; [reflexivity|discriminate]).
  split; [exact Hk|].
  exact (@one_request_per_run sample_runtime _ no_options Hk).
Defined.

Lemma sort_by_cheapest_no_record_witness :
  Exists (fun d => is_record d = false) [rec_B; rec_null_flight; rec_A]
  /\ sort_by_cheapest (H := sample_runtime)
       (VList [rec_B; rec_null_flight; rec_A])
     = Raise AttributeError.
Proof.
  assert (Hex : Exists (fun d => is_record d = false)
                  [rec_B; rec_null_flight; rec_A])
    by (apply Exists_cons_tl, Exists_cons_hd; reflexivity).
  split; [exact Hex|].
  exact (@sort_by_cheapest_no_record sample_runtime _ Hex).
Defined.

Lemma format_destination_no_record_witness :
  is_record rec_null_flight = false
  /\ format_destination (H := sample_runtime) rec_null_flight 1 "CHF" "ZRH" 1
     = Raise AttributeError.
Proof.
  split; [reflexivity|].
  exact (@format_destination_no_record sample_runtime rec_null_flight
           1 "CHF" "ZRH" 1 eq_refl).
Defined.

Lemma negative_limit_counts_from_end_witness :
  (sort_by_cheapest (H := sample_runtime) (VList [rec_A; rec_B; rec_C])
   = Ok [rec_B; rec_A; rec_C]
   /\ args.limit (parse_args (limit_only (-2))) < 0)
  /\ exists rq blocks,
       Z.of_nat (length blocks) = 1
       /\ run (H := sample_runtime) (host_answering three_found)
            (limit_only (-2))
          = (0, {| stdout := listing (parse_args (limit_only (-2))) 3 blocks;
                   stderr := []; sent := [rq] |}).
Proof.
  assert (Hs : sort_by_cheapest (H := sample_runtime)
                 (VList [rec_A; rec_B; rec_C]) = Ok [rec_B; rec_A; rec_C])
    by (vm_compute; reflexivity).
  assert (Hl : args.limit (parse_args (limit_only (-2))) < 0) by (simpl; lia).
  split; [split; assumption|].
  unfold three_found.
  set (body := {[ "destinations" := VList [rec_A; rec_B; rec_C] ]}
               : gmap string value).
  destruct (@negative_limit_counts_from_end sample_runtime
              (host_answering (VDict body)) (limit_only (-2)) body
              [rec_A; rec_B; rec_C] [rec_B; rec_A; rec_C]
              (secret_key _) (answering_returns _) eq_refl
              ltac:(discriminate) Hs Hl)
    as (rq & blocks & _ & Hlen & Hrun).
  exists rq, blocks. split; [exact Hlen|exact Hrun].
Defined.

Lemma body_no_object_stops_run_witness :
  (forall d, VList [rec_A] <> VDict d)
  /\ exists rq,
       run (H := sample_runtime) (host_answering (VList [rec_A])) no_options
       = (1, {| stdout := banner (parse_args no_options); stderr := [];
                sent := [rq] |}).
Proof.
  assert (Hno : forall d, VList [rec_A] <> VDict d) by (intros d; discriminate).
  split; [exact Hno|].
  destruct (@body_no_object_stops_run sample_runtime _ no_options _
              (secret_key _) (answering_returns _) Hno)
    as (rq & _ & _ & Hrun).
  exists rq. exact Hrun.
Defined.

Lemma no_record_stops_run_witness :
  Exists (fun d => is_record d = false) [rec_B; rec_null_flight]
  /\ (run (H := sample_runtime)
        (host_answering
           (VDict {[ "destinations" := VList [rec_B; rec_null_flight] ]}))
        no_options).1 = 1.
Proof.
  assert (Hex : Exists (fun d => is_record d = false) [rec_B; rec_null_flight])
    by (apply Exists_cons_tl, Exists_cons_hd; reflexivity).
  split; [exact Hex|].
  set (body := {[ "destinations" := VList [rec_B; rec_null_flight] ]}
               : gmap string value).
  exact (proj1 (@no_record_stops_run sample_runtime
                  (host_answering (VDict body)) no_options body
                  [rec_B; rec_null_flight]
                  (secret_key _) (answering_returns _) eq_refl Hex)).
Defined.

Lemma build_flight_link_inj_witness :
  build_flight_link (H := sample_runtime) "ZRH" (VStr "OPO") (VStr "2025-07-01")
    (VStr "2025-07-08") 1 "CHF"
  = build_flight_link (H := sample_runtime) "ZRH" (VStr "OPO")
      (VStr "2025-07-01") (VStr "2025-07-08") 1 "CHF"
  /\ "flights from ZRH to OPO on 2025-07-01 returning 2025-07-08"
     = "flights from ZRH to OPO on 2025-07-01 returning 2025-07-08".
Proof.
  split; [reflexivity|].
  exact (@build_flight_link_inj sample_runtime "ZRH" (VStr "OPO")
           (VStr "2025-07-01") (VStr "2025-07-08") "ZRH" (VStr "OPO")
           (VStr "2025-07-01") (VStr "2025-07-08") 1 "CHF" eq_refl).
Defined.

Lemma build_flight_link_plain_witness :
  (plain "ZRH" = true /\ plain "OPO" = true
   /\ plain "2025-07-01" = true /\ plain "2025-07-08" = true)
  /\ build_flight_link (H := sample_runtime) "ZRH" (VStr "OPO")
       (VStr "2025-07-01") (VStr "2025-07-08") 2 "EUR"
     = "https://www.google.com/travel/flights?q=flights%20from%20ZRH%20to%20OPO%20on%202025-07-01%20returning%202025-07-08&curr=EUR&px=2".
Proof.
  split; [repeat split|].
  exact (@build_flight_link_plain sample_runtime "ZRH" "OPO" "2025-07-01"
           "2025-07-08" 2 "EUR" eq_refl eq_refl eq_refl eq_refl).
Defined.

Lemma sort_by_cheapest_idempotent_witness :
  Forall (fun d => is_destination d = true) [rec_A; rec_B; rec_C]
  /\ exists out,
       sort_by_cheapest (H := sample_runtime) (VList [rec_A; rec_B; rec_C]) = Ok out
       /\ sort_by_cheapest (H := sample_runtime) (VList out) = Ok out.
Proof.
  assert (Hl : Forall (fun d => is_destination d = true) [rec_A; rec_B; rec_C])
    by (repeat constructor).
  split; [exact Hl|].
  exact (@sort_by_cheapest_idempotent sample_runtime _ Hl).
Defined.

Lemma stop_count_other_kinds_witness :
  is_record rec_A = true
  /\ exists heading p a d dates accommodation book,
       format_destination (H := sample_runtime) rec_A 1 "CHF" "ZRH" 1
       = Ok (block heading (flight_line p "CHF" a "N/A stop(s)" d)
               dates accommodation book).
Proof.
  split; [reflexivity|].
  destruct (@stop_count_other_kinds sample_runtime rec_A 1 "CHF" "ZRH" 1 eq_refl)
    as (v & shown & _ & Hf & _ & Hnone & _).
  eexists _, _, _, _, _, _, _. rewrite Hf, (Hnone eq_refl). reflexivity.
Defined.

Lemma run_request_witness :
  (environ host_unreachable !! "SEARCHAPI_API_KEY" = Some "secret"
   /\ "secret" <> "")
  /\ exists rq,
       sent (run (H := sample_runtime) host_unreachable (limit_only 5)).2 = [rq]
       /\ headers rq = {[ "Authorization" := "Bearer secret" ]}
       /\ params rq !! "limit" = None.
Proof.
  split; [split; [reflexivity|discriminate]|].
  destruct (@run_request sample_runtime host_unreachable (limit_only 5) "secret"
              eq_refl ltac:(discriminate))
    as (rq & Hs & _ & Hh & _ & Hl).
  exists rq. split; [exact Hs|]. split; [exact Hh|exact Hl].
Defined.

Lemma falsy_destinations_mean_no_results_witness :
  truthy VNone = false
  /\ exists rq,
       run (H := sample_runtime)
         (host_answering (VDict {[ "destinations" := VNone ]})) no_options
       = (0, {| stdout := banner (parse_args no_options) ++ [no_results];
                stderr := []; sent := [rq] |}).
Proof.
  split; [reflexivity|].
  set (body := {[ "destinations" := VNone ]} : gmap string value).
  exact (@falsy_destinations_mean_no_results sample_runtime
           (host_answering (VDict body)) no_options body VNone
           (secret_key _) (answering_returns _) eq_refl eq_refl).
Defined.
